(** * TerranPix: edit history, coordinate mapping and edit orchestration

    A shallow embedding of [src/App.tsx], [src/components/AdjustmentPanel.tsx]
    and [src/services/geminiService.ts].

    Conventions of the embedding.
    - A React state cell is a field of [AppState]; a handler is a function on
      [AppState].  A handler created by [useCallback] reads the values of the
      render it was created in (its closure) and writes the live state through
      the setters, so handlers that resume after an [await] take both the
      closure snapshot and the live state.
    - JavaScript numbers are IEEE 754 binary64 values: [number] is Rocq's
      primitive float, whose operations round to nearest, ties to even, as
      JavaScript's do.  There is one NaN.
    - JavaScript strings are modelled by byte strings holding their UTF-8
      encoding; commas, colons and semicolons are single bytes there, and the
      white space and line terminators outside ASCII are recognised by their
      byte sequences.  Lone surrogates have no counterpart.
    - Host functions that are not part of the repository ([atob], the canvas
      encoder, the clock, the confirmation dialog) are inputs. *)

From Stdlib Require Floats.
From Stdlib Require Import ZArith List String Ascii Bool Lia.
From Stdlib Require Import DecimalString.
Import ListNotations.

Open Scope Z_scope.

(* ------------------------------------------------------------------------- *)
(** ** JavaScript values *)

Module JS.

(** [Array.prototype.slice]: a negative bound counts from the end, and both
    bounds are clamped to the array. *)
Definition clampIndex (len i : Z) : Z :=
  if i <? 0 then Z.max (len + i) 0 else Z.min i len.

Definition slice {A : Type} (l : list A) (start end_ : Z) : list A :=
  let len := Z.of_nat (List.length l) in
  let k := clampIndex len start in
  let final := clampIndex len end_ in
  firstn (Z.to_nat (Z.max (final - k) 0)) (skipn (Z.to_nat k) l).

(** [l[i] ?? null] for an integer [i]: out of range reads give [undefined]. *)
Definition index {A : Type} (l : list A) (i : Z) : option A :=
  if i <? 0 then None else nth_error l (Z.to_nat i).

(** Numbers: IEEE 754 binary64. *)
Definition number : Type := PrimFloat.float.

(** The number written as an integer literal (below 2^53 in size). *)
Definition ofZ (z : Z) : number :=
  if z <? 0 then PrimFloat.opp (PrimFloat.of_uint63 (Uint63.of_Z (- z)))
  else PrimFloat.of_uint63 (Uint63.of_Z z).

Definition zero : number := ofZ 0.
Definition one : number := ofZ 1.
Definition half : number := PrimFloat.div one (ofZ 2).
Definition two52 : number := ofZ 4503599627370496.

(** [Number.isFinite]: neither NaN nor an infinity. *)
Definition isFinite (a : number) : bool :=
  match FloatOps.Prim2SF a with
  | SpecFloat.S754_zero _ | SpecFloat.S754_finite _ _ _ => true
  | _ => false
  end.

Definition sub (a b : number) : number := PrimFloat.sub a b.
Definition mul (a b : number) : number := PrimFloat.mul a b.
Definition div (a b : number) : number := PrimFloat.div a b.

(** The largest integer not above [x], for [x] below 2^52 in size: adding
    and removing 2^52 rounds [x] to an integer, which is then corrected
    downwards.  From 2^52 on every number is an integer. *)
Definition floor (x : number) : number :=
  if PrimFloat.ltb (PrimFloat.abs x) two52 then
    let r := if PrimFloat.leb zero x
             then PrimFloat.sub (PrimFloat.add x two52) two52
             else PrimFloat.add (PrimFloat.sub x two52) two52 in
    if PrimFloat.ltb x r then PrimFloat.sub r one else r
  else x.

(** [Math.round]: a number that is not finite or is an integer is returned
    as it is; a number between 0 and one half gives +0, one between minus one
    half and 0 gives -0; otherwise the nearest integer, the upper one at a
    tie. *)
Definition Math_round (x : number) : number :=
  if PrimFloat.ltb (PrimFloat.abs x) two52 then
    let r := floor x in
    if PrimFloat.eqb r x then x
    else if PrimFloat.ltb zero x && PrimFloat.ltb x half then zero
    else if PrimFloat.ltb x zero && PrimFloat.leb (PrimFloat.opp half) x
         then PrimFloat.opp zero
    else if PrimFloat.leb half (PrimFloat.sub x r) then PrimFloat.add r one
    else r
  else x.

(** [ToBoolean]: false for +0, -0 and NaN. *)
Definition truthy_number (a : number) : bool :=
  match FloatOps.Prim2SF a with
  | SpecFloat.S754_zero _ | SpecFloat.S754_nan => false
  | _ => true
  end.

(** [a || b] on numbers. *)
Definition or_number (a b : number) : number :=
  if truthy_number a then a else b.

(** The integer part of a finite number, 0 for the others. *)
Definition truncate (a : number) : Z :=
  match FloatOps.Prim2SF a with
  | SpecFloat.S754_finite s m e =>
      let v := if 0 <=? e then Zpos m * 2 ^ e else Zpos m / 2 ^ (- e) in
      if s then - v else v
  | _ => 0
  end.

(** Conversion to a WebIDL [unsigned long]: non-finite values become 0,
    finite ones are truncated towards zero and reduced modulo 2^32. *)
Definition toUnsignedLong (a : number) : Z := truncate a mod 2 ^ 32.

(** Strings: their UTF-8 encoding, one [ascii] per byte. *)
Definition truthy_string (s : string) : bool :=
  match s with EmptyString => false | _ => true end.

Definition bytes (codes : list nat) : list ascii := map ascii_of_nat codes.

(** Every character of a string passes a test. *)
Fixpoint forallChars (p : ascii -> bool) (s : string) : bool :=
  match s with
  | EmptyString => true
  | String c r => p c && forallChars p r
  end.

Fixpoint mapChars (f : ascii -> ascii) (s : string) : string :=
  match s with
  | EmptyString => EmptyString
  | String c r => String (f c) (mapChars f r)
  end.

(** The line terminators, LF, CR, U+2028 and U+2029, and with them the
    white space, U+0009, U+000B, U+000C, U+0020, U+00A0, U+1680, U+2000 to
    U+200A, U+202F, U+205F, U+3000 and U+FEFF, as encoded. *)
Definition lineTerminators : list (list ascii) :=
  map bytes [[10]; [13]; [226; 128; 168]; [226; 128; 169]]%nat.

Definition whiteSpace : list (list ascii) :=
  (lineTerminators
   ++ map bytes
        [[9]; [11]; [12]; [32]; [194; 160]; [225; 154; 128];
         [226; 128; 128]; [226; 128; 129]; [226; 128; 130]; [226; 128; 131];
         [226; 128; 132]; [226; 128; 133]; [226; 128; 134]; [226; 128; 135];
         [226; 128; 136]; [226; 128; 137]; [226; 128; 138];
         [226; 128; 175]; [226; 129; 159]; [227; 128; 128];
         [239; 187; 191]]%nat)%list.

(** What is left of [s] after the prefix [p], if [s] starts with it. *)
Fixpoint dropPrefix (p s : list ascii) : option (list ascii) :=
  match p, s with
  | [], _ => Some s
  | a :: p', b :: s' => if Ascii.eqb a b then dropPrefix p' s' else None
  | _ :: _, [] => None
  end.

Fixpoint dropAny (ps : list (list ascii)) (s : list ascii) : option (list ascii) :=
  match ps with
  | [] => None
  | p :: ps' =>
      match dropPrefix p s with
      | Some r => Some r
      | None => dropAny ps' s
      end
  end.

(** At most [n] leading sequences of [seqs] removed. *)
Fixpoint dropLeading (n : nat) (seqs : list (list ascii)) (s : list ascii)
    : list ascii :=
  match n with
  | O => s
  | S m =>
      match dropAny seqs s with
      | Some r => dropLeading m seqs r
      | None => s
      end
  end.

Definition trimStart (s : list ascii) : list ascii :=
  dropLeading (List.length s) whiteSpace s.

(** At the end of a string the sequences are read backwards; a sequence
    starts with a byte that is no continuation byte, so what is found is a
    whole character. *)
Definition trimEnd (s : list ascii) : list ascii :=
  rev (dropLeading (List.length s) (map (@rev ascii) whiteSpace) (rev s)).

(** [String.prototype.trim]. *)
Definition trim (s : string) : string :=
  string_of_list_ascii (trimEnd (trimStart (list_ascii_of_string s))).

(** Whether a line terminator starts the string: what the dot of a regular
    expression does not match. *)
Definition startsWithLineTerminator (s : string) : bool :=
  match dropAny lineTerminators (list_ascii_of_string s) with
  | Some _ => true
  | None => false
  end.

(** U+0020 to U+007E. *)
Definition isPrintable (c : ascii) : bool :=
  let n := nat_of_ascii c in
  ((32 <=? n) && (n <=? 126))%nat.

Definition toLowerAscii (c : ascii) : ascii :=
  let n := nat_of_ascii c in
  if ((65 <=? n) && (n <=? 90))%nat then ascii_of_nat (n + 32) else c.

(** [s.split(',')]: always at least one piece. *)
Fixpoint split (sep : ascii) (s : string) : list string :=
  match s with
  | EmptyString => [EmptyString]
  | String c r =>
      if Ascii.eqb c sep then EmptyString :: split sep r
      else match split sep r with
           | piece :: rest => String c piece :: rest
           | [] => [String c EmptyString]
           end
  end.

(** Template literals print an absent value as [undefined]. *)
Definition show (s : option string) : string :=
  match s with Some v => v | None => "undefined"%string end.

(** Decimal rendering of an integer, as in a template literal. *)
Definition showZ (z : Z) : string := NilZero.string_of_int (Z.to_int z).

(** Values that can be thrown, or that a promise can be rejected with. *)
Inductive Thrown : Type :=
| ErrorObject (message : string)
| NotAnError.

(** The result of a call that either returns or throws, and of a promise
    that is either fulfilled or rejected. *)
Inductive Completion (A : Type) : Type :=
| Normal (a : A)
| Throw (e : Thrown).
Arguments Normal {A} a.
Arguments Throw {A} e.

End JS.
Import JS.

Definition dquote : string := String (ascii_of_nat 34) EmptyString.

(* ------------------------------------------------------------------------- *)
(** ** Data model of [App.tsx] *)

(** A [File]: its name, its MIME type and its bytes. *)
Record File : Type := mkFile {
  file_name : string;
  file_type : string;
  file_bytes : string
}.

(** The type a [File] gets from [new File(bits, name, { type })]: a type
    with a character outside U+0020 to U+007E becomes the empty string, any
    other is put in ASCII lower case. *)
Definition fileType (t : string) : string :=
  if forallChars isPrintable t then mapChars toLowerAscii t else EmptyString.

Definition newFile (bits filename type : string) : File :=
  mkFile filename (fileType type) bits.

Inductive Tab : Type := retouch | adjust | filters | crop_tab.

Record Point : Type := mkPoint { px : number; py : number }.

(** [Crop] and [PixelCrop] of react-image-crop. *)
Inductive CropUnit : Type := unit_px | unit_percent.

Record Crop : Type := mkCrop {
  crop_unit : CropUnit;
  crop_x : number;
  crop_y : number;
  crop_width : number;
  crop_height : number
}.

Record PixelCrop : Type := mkPixelCrop {
  pc_x : number;
  pc_y : number;
  pc_width : number;
  pc_height : number
}.

(** The [useState] cells of the [App] component. *)
Record AppState : Type := mkApp {
  history : list File;
  historyIndex : Z;
  prompt : string;
  isLoading : bool;
  error : option string;
  editHotspot : option Point;
  displayHotspot : option Point;
  activeTab : Tab;
  crop : option Crop;
  completedCrop : option PixelCrop;
  aspect : option number;
  isComparing : bool;
  isSideBySide : bool
}.

(** The state of the first render. *)
Definition initialState : AppState :=
  {| history := []; historyIndex := -1; prompt := EmptyString; isLoading := false;
     error := None; editHotspot := None; displayHotspot := None;
     activeTab := retouch; crop := None; completedCrop := None;
     aspect := None; isComparing := false; isSideBySide := false |}.

(** The setters. *)
Definition setHistory (v : list File) (s : AppState) : AppState :=
  mkApp v (historyIndex s) (prompt s) (isLoading s) (error s) (editHotspot s)
    (displayHotspot s) (activeTab s) (crop s) (completedCrop s) (aspect s)
    (isComparing s) (isSideBySide s).

Definition setHistoryIndex (v : Z) (s : AppState) : AppState :=
  mkApp (history s) v (prompt s) (isLoading s) (error s) (editHotspot s)
    (displayHotspot s) (activeTab s) (crop s) (completedCrop s) (aspect s)
    (isComparing s) (isSideBySide s).

Definition setPrompt (v : string) (s : AppState) : AppState :=
  mkApp (history s) (historyIndex s) v (isLoading s) (error s) (editHotspot s)
    (displayHotspot s) (activeTab s) (crop s) (completedCrop s) (aspect s)
    (isComparing s) (isSideBySide s).

Definition setIsLoading (v : bool) (s : AppState) : AppState :=
  mkApp (history s) (historyIndex s) (prompt s) v (error s) (editHotspot s)
    (displayHotspot s) (activeTab s) (crop s) (completedCrop s) (aspect s)
    (isComparing s) (isSideBySide s).

Definition setError (v : option string) (s : AppState) : AppState :=
  mkApp (history s) (historyIndex s) (prompt s) (isLoading s) v (editHotspot s)
    (displayHotspot s) (activeTab s) (crop s) (completedCrop s) (aspect s)
    (isComparing s) (isSideBySide s).

Definition setEditHotspot (v : option Point) (s : AppState) : AppState :=
  mkApp (history s) (historyIndex s) (prompt s) (isLoading s) (error s) v
    (displayHotspot s) (activeTab s) (crop s) (completedCrop s) (aspect s)
    (isComparing s) (isSideBySide s).

Definition setDisplayHotspot (v : option Point) (s : AppState) : AppState :=
  mkApp (history s) (historyIndex s) (prompt s) (isLoading s) (error s)
    (editHotspot s) v (activeTab s) (crop s) (completedCrop s) (aspect s)
    (isComparing s) (isSideBySide s).

Definition setActiveTab (v : Tab) (s : AppState) : AppState :=
  mkApp (history s) (historyIndex s) (prompt s) (isLoading s) (error s)
    (editHotspot s) (displayHotspot s) v (crop s) (completedCrop s) (aspect s)
    (isComparing s) (isSideBySide s).

Definition setCrop (v : option Crop) (s : AppState) : AppState :=
  mkApp (history s) (historyIndex s) (prompt s) (isLoading s) (error s)
    (editHotspot s) (displayHotspot s) (activeTab s) v (completedCrop s)
    (aspect s) (isComparing s) (isSideBySide s).

Definition setCompletedCrop (v : option PixelCrop) (s : AppState) : AppState :=
  mkApp (history s) (historyIndex s) (prompt s) (isLoading s) (error s)
    (editHotspot s) (displayHotspot s) (activeTab s) (crop s) v (aspect s)
    (isComparing s) (isSideBySide s).

Definition setIsSideBySide (v : bool) (s : AppState) : AppState :=
  mkApp (history s) (historyIndex s) (prompt s) (isLoading s) (error s)
    (editHotspot s) (displayHotspot s) (activeTab s) (crop s) (completedCrop s)
    (aspect s) (isComparing s) v.

(** Derived values of a render. *)
Definition currentImage (s : AppState) : option File :=
  index (history s) (historyIndex s).

Definition originalImage (s : AppState) : option File :=
  index (history s) 0.

Definition canUndo (s : AppState) : bool := 0 <? historyIndex s.

Definition canRedo (s : AppState) : bool :=
  historyIndex s <? Z.of_nat (List.length (history s)) - 1.

(** The shape of the two history cells in every render: no image and cursor
    -1, or a cursor inside the sequence. *)
Definition wellFormed (s : AppState) : Prop :=
  (history s = [] /\ historyIndex s = -1)
  \/ 0 <= historyIndex s < Z.of_nat (List.length (history s)).

(* ------------------------------------------------------------------------- *)
(** ** Edit history *)

(** [addImageToHistory]: [cl] is the render the callback closes over, [s] the
    live state the setters write. *)
Definition addImageToHistory (cl : AppState) (newImageFile : File)
    (s : AppState) : AppState :=
  let newHistory := slice (history cl) 0 (historyIndex cl + 1) ++ [newImageFile] in
  setCompletedCrop None
    (setCrop None
      (setHistoryIndex (Z.of_nat (List.length newHistory) - 1)
        (setHistory newHistory s))).

Definition handleImageUpload (file : File) (s : AppState) : AppState :=
  setCompletedCrop None
    (setCrop None
      (setActiveTab retouch
        (setDisplayHotspot None
          (setEditHotspot None
            (setHistoryIndex 0
              (setHistory [file]
                (setError None s))))))).

Definition handleUndo (s : AppState) : AppState :=
  if canUndo s then
    setDisplayHotspot None
      (setEditHotspot None
        (setHistoryIndex (historyIndex s - 1) s))
  else s.

Definition handleRedo (s : AppState) : AppState :=
  if canRedo s then
    setDisplayHotspot None
      (setEditHotspot None
        (setHistoryIndex (historyIndex s + 1) s))
  else s.

(** [handleReset]; [confirmed] is the answer of [window.confirm], which is
    asked only when the history is not empty. *)
Definition handleReset (confirmed : bool) (s : AppState) : AppState :=
  if (0 <? Z.of_nat (List.length (history s))) && confirmed then
    setCompletedCrop None
      (setCrop None
        (setDisplayHotspot None
          (setEditHotspot None
            (setError None
              (setHistoryIndex 0 s)))))
  else s.

Definition handleNewImage (confirmed : bool) (s : AppState) : AppState :=
  if confirmed then
    setCompletedCrop None
      (setCrop None
        (setDisplayHotspot None
          (setEditHotspot None
            (setError None
              (setHistoryIndex (-1)
                (setHistory [] s))))))
  else s.

Definition handleTabChange (tab : Tab) (s : AppState) : AppState :=
  let s1 := setActiveTab tab s in
  if isSideBySide s &&
     match tab with retouch | crop_tab => true | _ => false end
  then setIsSideBySide false s1
  else s1.

(* ------------------------------------------------------------------------- *)
(** ** Coordinate mapping *)

(** What [handleImageClick] reads from the mouse event: the pointer position,
    the natural size of the clicked image and its bounding rectangle. *)
Record ClickEvent : Type := mkClick {
  clientX : number;
  clientY : number;
  naturalWidth : number;
  naturalHeight : number;
  rect_left : number;
  rect_top : number;
  rect_width : number;
  rect_height : number
}.

Definition handleImageClick (e : ClickEvent) (s : AppState) : AppState :=
  if match activeTab s with retouch => false | _ => true end || isLoading s
  then s
  else
    let x := Math_round
               (mul (div (sub (clientX e) (rect_left e)) (rect_width e))
                    (naturalWidth e)) in
    let y := Math_round
               (mul (div (sub (clientY e) (rect_top e)) (rect_height e))
                    (naturalHeight e)) in
    let displayX := sub (clientX e) (rect_left e) in
    let displayY := sub (clientY e) (rect_top e) in
    setDisplayHotspot (Some (mkPoint displayX displayY))
      (setEditHotspot (Some (mkPoint x y)) s).

(** The image element behind [imgRef]. *)
Record HTMLImageElement : Type := mkImg {
  img_naturalWidth : number;
  img_naturalHeight : number;
  img_width : number;
  img_height : number
}.

(** The arguments of the nine-argument [drawImage]. *)
Record DrawImage : Type := mkDraw {
  draw_sx : number; draw_sy : number; draw_sw : number; draw_sh : number;
  draw_dx : number; draw_dy : number; draw_dw : number; draw_dh : number
}.

(** The canvas built by [handleApplyCrop]: its bitmap size, the transform set
    on its context and the one draw call. *)
Record Canvas : Type := mkCanvas {
  canvas_width : Z;
  canvas_height : Z;
  canvas_transform : number * number * number * number * number * number;
  canvas_draw : DrawImage
}.

(** Assigning a number to [canvas.width] or [canvas.height]: the value is
    converted to an [unsigned long]; a value above 2^31 - 1 is replaced by the
    attribute's default. *)
Definition setCanvasDimension (default : Z) (v : number) : Z :=
  let n := toUnsignedLong v in
  if n <=? 2147483647 then n else default.

(** Lines 200-229 of [handleApplyCrop]: the canvas for a completed crop. *)
Definition cropCanvas (completedCrop : PixelCrop) (image : HTMLImageElement)
    (devicePixelRatio : number) : Canvas :=
  let scaleX := div (img_naturalWidth image) (img_width image) in
  let scaleY := div (img_naturalHeight image) (img_height image) in
  let pixelRatio := or_number devicePixelRatio (ofZ 1) in
  {| canvas_width := setCanvasDimension 300 (mul (pc_width completedCrop) pixelRatio);
     canvas_height := setCanvasDimension 150 (mul (pc_height completedCrop) pixelRatio);
     canvas_transform := (pixelRatio, ofZ 0, ofZ 0, pixelRatio, ofZ 0, ofZ 0);
     canvas_draw :=
       {| draw_sx := mul (pc_x completedCrop) scaleX;
          draw_sy := mul (pc_y completedCrop) scaleY;
          draw_sw := mul (pc_width completedCrop) scaleX;
          draw_sh := mul (pc_height completedCrop) scaleY;
          draw_dx := ofZ 0;
          draw_dy := ofZ 0;
          draw_dw := pc_width completedCrop;
          draw_dh := pc_height completedCrop |} |}.

(* ------------------------------------------------------------------------- *)
(** ** The edit service ([geminiService.ts]) *)

Module Service.

Local Open Scope string_scope.

Record Blob : Type := mkBlob {
  mimeType : option string;
  data : option string
}.

Record Part : Type := mkPart {
  inlineData : option Blob;
  part_text : option string
}.

Record Content : Type := mkContent { parts : option (list Part) }.

Record Candidate : Type := mkCandidate {
  content : option Content;
  finishReason : option string
}.

Record PromptFeedback : Type := mkPromptFeedback {
  blockReason : option string;
  blockReasonMessage : option string
}.

(** [response_text] is the value of the SDK's [text] accessor. *)
Record GenerateContentResponse : Type := mkResponse {
  promptFeedback : option PromptFeedback;
  candidates : option (list Candidate);
  response_text : option string
}.

(** An optional string that is present and not empty. *)
Definition truthy (s : option string) : option string :=
  match s with
  | Some v => if truthy_string v then Some v else None
  | None => None
  end.

(** [response.promptFeedback?.blockReason], when truthy. *)
Definition promptBlockReason (response : GenerateContentResponse) : option string :=
  match promptFeedback response with
  | Some fb => truthy (blockReason fb)
  | None => None
  end.

(** [response.candidates?.[0]]. *)
Definition firstCandidate (response : GenerateContentResponse) : option Candidate :=
  match candidates response with
  | Some (c :: _) => Some c
  | _ => None
  end.

(** [response.candidates?.[0]?.content?.parts?.find(part => part.inlineData)]. *)
Definition imagePartFromResponse (response : GenerateContentResponse) : option Part :=
  match firstCandidate response with
  | Some c =>
      match content c with
      | Some ct =>
          match parts ct with
          | Some ps =>
              find (fun part => match inlineData part with Some _ => true | None => false end) ps
          | None => None
          end
      | None => None
      end
  | None => None
  end.

(** [response.candidates?.[0]?.finishReason], when truthy. *)
Definition candidateFinishReason (response : GenerateContentResponse) : option string :=
  match firstCandidate response with
  | Some c => truthy (finishReason c)
  | None => None
  end.

Definition blockedMessage (fb : PromptFeedback) (reason : string) : string :=
  "La requête a été bloquée. Raison : " ++ reason ++ ". "
    ++ match truthy (blockReasonMessage fb) with Some m => m | None => EmptyString end.

Definition unexpectedStopMessage (context reason : string) : string :=
  "La génération d'image pour " ++ context
    ++ " s'est arrêtée de manière inattendue. Raison : " ++ reason
    ++ ". Ceci est souvent lié aux paramètres de sécurité.".

Definition noImageMessage (context : string) (textFeedback : option string) : string :=
  "Le modèle d'IA n'a pas retourné d'image pour " ++ context ++ ". "
    ++ match truthy textFeedback with
       | Some t => "Le modèle a répondu avec du texte : " ++ dquote ++ t ++ dquote
       | None => "Cela peut se produire en raison des filtres de sécurité ou si la demande est trop complexe. Veuillez essayer de reformuler votre instruction pour être plus direct."
       end.

(** Step 1 of [handleApiResponse]: the error thrown for a blocked prompt. *)
Definition promptBlocked (response : GenerateContentResponse) : option Thrown :=
  match promptFeedback response with
  | Some fb =>
      match truthy (blockReason fb) with
      | Some reason => Some (ErrorObject (blockedMessage fb reason))
      | None => None
      end
  | None => None
  end.

Definition handleApiResponse (response : GenerateContentResponse)
    (context : string) : Completion string :=
  match promptBlocked response with
  | Some thrown => Throw thrown
  | None =>
      match imagePartFromResponse response with
      | Some {| inlineData := Some blob |} =>
          Normal ("data:" ++ show (mimeType blob) ++ ";base64," ++ show (data blob))
      | _ =>
          match candidateFinishReason response with
          | Some reason =>
              if String.eqb reason "STOP"
              then Throw (ErrorObject
                     (noImageMessage context (option_map trim (response_text response))))
              else Throw (ErrorObject (unexpectedStopMessage context reason))
          | None =>
              Throw (ErrorObject
                (noImageMessage context (option_map trim (response_text response))))
          end
      end
  end.

End Service.

(* ------------------------------------------------------------------------- *)
(** ** Decoding data URLs *)

(** [(.*?);] matched at the head of [s]: what comes before the first
    semicolon, unless a line terminator comes first. *)
Fixpoint untilSemicolon (s : string) : option string :=
  match s with
  | EmptyString => None
  | String c r =>
      if Ascii.eqb c ";" then Some EmptyString
      else if startsWithLineTerminator s then None
      else option_map (String c) (untilSemicolon r)
  end.

(** [s.match(/:(.*?);/)]: the first group of the leftmost match. *)
Fixpoint matchMime (s : string) : option string :=
  match s with
  | EmptyString => None
  | String c r =>
      if Ascii.eqb c ":" then
        match untilSemicolon r with
        | Some g => Some g
        | None => matchMime r
        end
      else matchMime r
  end.

Section Host.

(** [atob], the host's base64 decoder; it throws on malformed input. *)
Variable atob : string -> Completion string.

Definition dataURLtoFile (dataurl filename : string) : Completion File :=
  match split "," dataurl with
  | head :: payload :: _ =>
      match matchMime head with
      | Some mime =>
          if truthy_string mime then
            match atob payload with
            | Normal bstr => Normal (newFile bstr filename mime)
            | Throw e => Throw e
            end
          else Throw (ErrorObject "Impossible d'analyser le type MIME à partir de l'URL de données")
      | None => Throw (ErrorObject "Impossible d'analyser le type MIME à partir de l'URL de données")
      end
  | _ => Throw (ErrorObject "URL de données invalide")
  end.

(** What the host supplies to one run of [handleApplyCrop]. *)
Record CropHost : Type := mkCropHost {
  imgRef_current : option HTMLImageElement;
  context2d : bool;
  window_devicePixelRatio : number;
  toDataURL : Canvas -> string;
  crop_now : Z
}.

(** [handleApplyCrop]; the decoding of the canvas's data URL is not inside a
    [try], so an exception leaves the handler with no setter called. *)
Definition handleApplyCrop (h : CropHost) (s : AppState) : Completion AppState :=
  match completedCrop s, imgRef_current h with
  | Some cc, Some image =>
      if context2d h then
        let canvas := cropCanvas cc image (window_devicePixelRatio h) in
        let croppedImageUrl := toDataURL h canvas in
        match dataURLtoFile croppedImageUrl
                ("rognee-" ++ showZ (crop_now h) ++ ".png") with
        | Normal newImageFile => Normal (addImageToHistory s newImageFile s)
        | Throw e => Throw e
        end
      else Normal (setError (Some "Impossible de traiter le rognage."%string) s)
  | _, _ => Normal (setError (Some "Veuillez sélectionner une zone à rogner."%string) s)
  end.

(* ------------------------------------------------------------------------- *)
(** ** Edit orchestration *)

(** The three calls into the edit service. *)
Inductive ServiceCall : Type :=
| generateEditedImage (originalImage : File) (userPrompt : string) (hotspot : Point)
| generateFilteredImage (originalImage : File) (filterPrompt : string)
| generateAdjustedImage (originalImage : File) (adjustmentPrompt : string).

(** The [context] each call hands to [handleApiResponse]. *)
Definition callContext (call : ServiceCall) : string :=
  match call with
  | generateEditedImage _ _ _ => "la retouche"
  | generateFilteredImage _ _ => "le filtre"
  | generateAdjustedImage _ _ => "l'ajustement"
  end.

(** What the host answers during one service call: the result of reading the
    file as a data URL, and the reply of [generateContent]. *)
Record ServiceHost : Type := mkServiceHost {
  readAsDataURL : Completion string;
  generateContent : Completion Service.GenerateContentResponse
}.

(** [fileToPart]: the MIME type and the payload of the file's data URL. *)
Definition fileToPart (read : Completion string) : Completion Service.Blob :=
  match read with
  | Throw e => Throw e
  | Normal dataUrl =>
      match split "," dataUrl with
      | head :: payload :: _ =>
          match matchMime head with
          | Some mime =>
              if truthy_string mime
              then Normal (Service.mkBlob (Some mime) (Some payload))
              else Throw (ErrorObject "Impossible d'analyser le type MIME à partir de l'URL de données")
          | None => Throw (ErrorObject "Impossible d'analyser le type MIME à partir de l'URL de données")
          end
      | _ => Throw (ErrorObject "URL de données invalide")
      end
  end.

(** How the promise of a service call settles.  The prompt text sent to the
    model has no influence on it and is not modelled. *)
Definition settle (call : ServiceCall) (h : ServiceHost) : Completion string :=
  match fileToPart (readAsDataURL h) with
  | Throw e => Throw e
  | Normal _ =>
      match generateContent h with
      | Throw e => Throw e
      | Normal response => Service.handleApiResponse response (callContext call)
      end
  end.

(** A handler either runs to its end, or stops at its [await] with a service
    call outstanding. *)
Inductive Step : Type :=
| Return (s : AppState)
| Await (s : AppState) (call : ServiceCall).

Definition stateOf (st : Step) : AppState :=
  match st with Return s => s | Await s _ => s end.

Definition callOf (st : Step) : option ServiceCall :=
  match st with Return _ => None | Await _ c => Some c end.

(** [err instanceof Error ? err.message : ...]. *)
Definition errorMessage (err : Thrown) : string :=
  match err with
  | ErrorObject m => m
  | NotAnError => "Une erreur inconnue est survenue."
  end.

(** [handleGenerate] up to its [await]. *)
Definition handleGenerate (s : AppState) : Step :=
  match currentImage s with
  | None => Return (setError (Some "Aucune image chargée à modifier."%string) s)
  | Some image =>
      if negb (truthy_string (trim (prompt s))) then
        Return (setError (Some "Veuillez entrer une description pour votre modification."%string) s)
      else
        match editHotspot s with
        | None =>
            Return (setError (Some "Veuillez cliquer sur l'image pour sélectionner une zone à modifier."%string) s)
        | Some hotspot =>
            Await (setError None (setIsLoading true s))
                  (generateEditedImage image (prompt s) hotspot)
        end
  end.

(** [handleGenerate] from its [await] on: [cl] is the render the handler was
    created in, [outcome] how the promise settled, [now] the clock. *)
Definition handleGenerate_resume (cl : AppState) (outcome : Completion string)
    (now : Z) (s : AppState) : AppState :=
  let failed err :=
    setError (Some ("Échec de la génération de l'image. " ++ errorMessage err)%string) s in
  setIsLoading false
    match outcome with
    | Normal editedImageUrl =>
        match dataURLtoFile editedImageUrl ("modifiee-" ++ showZ now ++ ".png") with
        | Normal newImageFile =>
            setDisplayHotspot None
              (setEditHotspot None
                (addImageToHistory cl newImageFile s))
        | Throw err => failed err
        end
    | Throw err => failed err
    end.

Definition handleApplyFilter (filterPrompt : string) (s : AppState) : Step :=
  match currentImage s with
  | None => Return (setError (Some "Aucune image chargée pour appliquer un filtre."%string) s)
  | Some image =>
      Await (setError None (setIsLoading true s))
            (generateFilteredImage image filterPrompt)
  end.

Definition handleApplyFilter_resume (cl : AppState) (outcome : Completion string)
    (now : Z) (s : AppState) : AppState :=
  let failed err :=
    setError (Some ("Échec de l'application du filtre. " ++ errorMessage err)%string) s in
  setIsLoading false
    match outcome with
    | Normal filteredImageUrl =>
        match dataURLtoFile filteredImageUrl ("filtree-" ++ showZ now ++ ".png") with
        | Normal newImageFile => addImageToHistory cl newImageFile s
        | Throw err => failed err
        end
    | Throw err => failed err
    end.

Definition handleApplyAdjustment (adjustmentPrompt : string) (s : AppState) : Step :=
  match currentImage s with
  | None => Return (setError (Some "Aucune image chargée pour appliquer un ajustement."%string) s)
  | Some image =>
      Await (setError None (setIsLoading true s))
            (generateAdjustedImage image adjustmentPrompt)
  end.

Definition handleApplyAdjustment_resume (cl : AppState) (outcome : Completion string)
    (now : Z) (s : AppState) : AppState :=
  let failed err :=
    setError (Some ("Échec de l'application de l'ajustement. " ++ errorMessage err)%string) s in
  setIsLoading false
    match outcome with
    | Normal adjustedImageUrl =>
        match dataURLtoFile adjustedImageUrl ("ajustee-" ++ showZ now ++ ".png") with
        | Normal newImageFile => addImageToHistory cl newImageFile s
        | Throw err => failed err
        end
    | Throw err => failed err
    end.

End Host.

(** The three asynchronous edits under one name, for statements that range
    over all of them. *)
Inductive AsyncEdit : Type :=
| Retouch
| Filter (filterPrompt : string)
| Adjustment (adjustmentPrompt : string).

Definition request (k : AsyncEdit) (s : AppState) : Step :=
  match k with
  | Retouch => handleGenerate s
  | Filter p => handleApplyFilter p s
  | Adjustment p => handleApplyAdjustment p s
  end.

Definition resume (atob : string -> Completion string) (k : AsyncEdit)
    (cl : AppState) (outcome : Completion string) (now : Z)
    (s : AppState) : AppState :=
  match k with
  | Retouch => handleGenerate_resume atob cl outcome now s
  | Filter _ => handleApplyFilter_resume atob cl outcome now s
  | Adjustment _ => handleApplyAdjustment_resume atob cl outcome now s
  end.

(** The file name each handler gives to the decoded image. *)
Definition fileName (k : AsyncEdit) (now : Z) : string :=
  match k with
  | Retouch => "modifiee-" ++ showZ now ++ ".png"
  | Filter _ => "filtree-" ++ showZ now ++ ".png"
  | Adjustment _ => "ajustee-" ++ showZ now ++ ".png"
  end.

(** The text each handler puts in front of the reason of a failure. *)
Definition failurePrefix (k : AsyncEdit) : string :=
  match k with
  | Retouch => "Échec de la génération de l'image. "
  | Filter _ => "Échec de l'application du filtre. "
  | Adjustment _ => "Échec de l'application de l'ajustement. "
  end.

(** The body of the [try]: the settled promise decoded into a file. *)
Definition decoded (atob : string -> Completion string) (k : AsyncEdit)
    (outcome : Completion string) (now : Z) : Completion File :=
  match outcome with
  | Normal url => dataURLtoFile atob url (fileName k now)
  | Throw err => Throw err
  end.

(* ------------------------------------------------------------------------- *)
(** ** The controls that call the handlers *)

Module AdjustmentPanel.

Record State : Type := mkPanel {
  selectedPresetPrompt : option string;
  customPrompt : string
}.

(** [selectedPresetPrompt || customPrompt]. *)
Definition activePrompt (p : State) : string :=
  match selectedPresetPrompt p with
  | Some v => if truthy_string v then v else customPrompt p
  | None => customPrompt p
  end.

Definition handlePresetClick (prompt : string) (p : State) : State :=
  mkPanel (Some prompt) EmptyString.

Definition handleCustomChange (value : string) (p : State) : State :=
  mkPanel None value.

(** [handleApply]: the argument it calls [onApplyAdjustment] with, if it
    calls it. *)
Definition handleApply (p : State) : option string :=
  if truthy_string (activePrompt p) then Some (activePrompt p) else None.

Definition applyButtonRendered (p : State) : bool :=
  truthy_string (activePrompt p).

Definition applyButtonDisabled (isLoading : bool) (p : State) : bool :=
  isLoading || negb (truthy_string (trim (activePrompt p))).

(** A click on the apply button: a button that is not rendered or is
    disabled runs no handler. *)
Definition clickApply (isLoading : bool) (p : State) : option string :=
  if applyButtonRendered p && negb (applyButtonDisabled isLoading p)
  then handleApply p
  else None.

End AdjustmentPanel.

Definition isRetouch (t : Tab) : bool :=
  match t with retouch => true | _ => false end.

Definition isAdjust (t : Tab) : bool :=
  match t with adjust => true | _ => false end.

(** The editor is rendered only when there is a current image; otherwise the
    start screen is. *)
Definition editorRendered (s : AppState) : bool :=
  match currentImage s with Some _ => true | None => false end.

Definition generateButtonDisabled (s : AppState) : bool :=
  isLoading s || negb (truthy_string (trim (prompt s)))
  || match editHotspot s with Some _ => false | None => true end.

Definition clickGenerate (s : AppState) : Step :=
  if editorRendered s && isRetouch (activeTab s) && negb (generateButtonDisabled s)
  then handleGenerate s
  else Return s.

Definition clickApplyAdjustment (p : AdjustmentPanel.State) (s : AppState) : Step :=
  if editorRendered s && isAdjust (activeTab s) then
    match AdjustmentPanel.clickApply (isLoading s) p with
    | Some adjustmentPrompt => handleApplyAdjustment adjustmentPrompt s
    | None => Return s
    end
  else Return s.

Definition clickTab (tab : Tab) (s : AppState) : AppState :=
  if editorRendered s && negb (isLoading s) then handleTabChange tab s else s.

Definition clickUndo (s : AppState) : AppState :=
  if editorRendered s && negb (negb (canUndo s) || isLoading s)
  then handleUndo s else s.

Definition clickRedo (s : AppState) : AppState :=
  if editorRendered s && negb (negb (canRedo s) || isLoading s)
  then handleRedo s else s.

Definition clickReset (confirmed : bool) (s : AppState) : AppState :=
  if editorRendered s
     && negb (isLoading s || (Z.of_nat (List.length (history s)) <? 2))
  then handleReset confirmed s else s.

Definition clickNewImage (confirmed : bool) (s : AppState) : AppState :=
  if editorRendered s && negb (isLoading s) then handleNewImage confirmed s else s.

(** Whether the hotspot marker is drawn (the condition around it in the
    render). *)
Definition hotspotMarkerShown (s : AppState) : bool :=
  negb (isSideBySide s)
  && match displayHotspot s with Some _ => true | None => false end
  && isRetouch (activeTab s)
  && negb (isLoading s).

(* ------------------------------------------------------------------------- *)
(** ** Sample data *)

Definition fileA : File := mkFile "a.png" "image/png" "A".
Definition fileB : File := mkFile "b.png" "image/png" "B".
Definition fileC : File := mkFile "c.png" "image/png" "C".
Definition fileD : File := mkFile "d.png" "image/png" "D".

(** A session with the given history and cursor, everything else as at
    start. *)
Definition session (h : list File) (i : Z) : AppState :=
  setHistoryIndex i (setHistory h initialState).

(** [n] applications of a handler. *)
Fixpoint repeatedly (n : nat) (f : AppState -> AppState) (s : AppState) : AppState :=
  match n with
  | O => s
  | S m => repeatedly m f (f s)
  end.

(** A decoder that accepts every payload, for examples. *)
Definition atobIdentity (s : string) : Completion string := Normal s.

Definition samplePoint : Point := mkPoint (ofZ 40) (ofZ 30).

Definition sampleCrop : PixelCrop := mkPixelCrop (ofZ 0) (ofZ 0) (ofZ 50) (ofZ 50).

(** Two images, the second one current, with a hotspot and a completed crop
    selection. *)
Definition markedSession : AppState :=
  setCompletedCrop (Some sampleCrop)
    (setCrop (Some (mkCrop unit_px (ofZ 0) (ofZ 0) (ofZ 50) (ofZ 50)))
      (setDisplayHotspot (Some samplePoint)
        (setEditHotspot (Some samplePoint)
          (session [fileA; fileB] 1)))).

Definition sampleUrl : string := "data:image/png;base64,AAAA".

(** One image, an edit loading, a prompt typed and a hotspot chosen. *)
Definition loadingSession : AppState :=
  setIsLoading true
    (setPrompt "plus de ciel"
      (setEditHotspot (Some samplePoint)
        (session [fileA] 0))).

(** A click at offset (10, 0) on an image whose bounding rectangle is empty. *)
Definition zeroSizeClick : ClickEvent :=
  mkClick (ofZ 10) (ofZ 0) (ofZ 2000) (ofZ 1000) (ofZ 0) (ofZ 0) (ofZ 0) (ofZ 0).

(** A response that carries a block reason and an image part at once. *)
Definition blockedWithImage : Service.GenerateContentResponse :=
  Service.mkResponse
    (Some (Service.mkPromptFeedback (Some "SAFETY"%string) None))
    (Some [Service.mkCandidate
             (Some (Service.mkContent
                      (Some [Service.mkPart
                               (Some (Service.mkBlob (Some "image/png"%string)
                                                     (Some "AAAA"%string)))
                               None])))
             (Some "STOP"%string)])
    None.

(* ------------------------------------------------------------------------- *)
(** ** Further controls and helpers *)

Definition isCrop (t : Tab) : bool :=
  match t with crop_tab => true | _ => false end.

(** The side-by-side button of the toolbar. *)
Definition sideBySideButtonDisabled (s : AppState) : bool :=
  isLoading s || (Z.of_nat (List.length (history s)) <? 2)
  || isRetouch (activeTab s) || isCrop (activeTab s).

Definition clickSideBySide (s : AppState) : AppState :=
  if editorRendered s && negb (sideBySideButtonDisabled s)
  then setIsSideBySide (negb (isSideBySide s)) s
  else s.

(** Side-by-side mode is on only on the two tabs whose button allows it. *)
Definition sideBySideOnItsTabs (s : AppState) : Prop :=
  isSideBySide s = true -> activeTab s = adjust \/ activeTab s = filters.

(** The image and the instruction a service call is made with. *)
Definition callImage (call : ServiceCall) : File :=
  match call with
  | generateEditedImage image _ _ => image
  | generateFilteredImage image _ => image
  | generateAdjustedImage image _ => image
  end.

Definition callPrompt (call : ServiceCall) : string :=
  match call with
  | generateEditedImage _ p _ => p
  | generateFilteredImage _ p => p
  | generateAdjustedImage _ p => p
  end.

Definition noComma (s : string) : bool :=
  forallChars (fun c => negb (Ascii.eqb c ",")) s.

(** A MIME type as services send it: not empty, of characters from U+0020
    to U+007E, and free of the two characters the decoding of a data URL
    stops at. *)
Definition plainMime (m : string) : bool :=
  truthy_string m
  && forallChars (fun c => isPrintable c && negb (Ascii.eqb c ",")
                           && negb (Ascii.eqb c ";")) m.

(** What the two decoders of a data URL do once the MIME type [m] and the
    payload [p] are found. *)
Definition decodedFile (atob : string -> Completion string)
    (filename m p : string) : Completion File :=
  match atob p with
  | Normal bstr => Normal (newFile bstr filename m)
  | Throw e => Throw e
  end.

(** A response with one candidate holding the given parts. *)
Definition responseWithParts (ps : list Service.Part) : Service.GenerateContentResponse :=
  Service.mkResponse None
    (Some [Service.mkCandidate (Some (Service.mkContent (Some ps))) (Some "STOP"%string)])
    None.

(** A host for a crop: an image element rendered at half its natural size, a
    drawing context, pixel ratio 2, and an encoder that returns the sample
    URL. *)
Definition sampleCropHost : CropHost :=
  mkCropHost (Some (mkImg (ofZ 2000) (ofZ 1000) (ofZ 1000) (ofZ 500)))
             true (ofZ 2) (fun _ => sampleUrl) 42.

(** The contract of the coordinate mapper as the specification words it:
    [nativePos.x = round (pointerPos.x / renderedSize.width * naturalSize.width)],
    and likewise for [y]. *)
Definition toNative (pointerPos : Point)
    (renderedWidth renderedHeight naturalWidth naturalHeight : number) : Point :=
  mkPoint (Math_round (mul (div (px pointerPos) renderedWidth) naturalWidth))
          (Math_round (mul (div (py pointerPos) renderedHeight) naturalHeight)).

(** +0 or -0. *)
Definition isZero (a : number) : bool :=
  match FloatOps.Prim2SF a with
  | SpecFloat.S754_zero _ => true
  | _ => false
  end.

(** The ratio 1.2, the double nearest to it. *)
Definition ratio12 : number := div (ofZ 6) (ofZ 5).

(** Two fifths, the double nearest to it. *)
Definition twoFifths : number := div (ofZ 2) (ofZ 5).

(** A selection 50 displayed pixels wide and two fifths of a pixel high. *)
Definition thinCrop : PixelCrop :=
  mkPixelCrop (ofZ 0) (ofZ 0) (ofZ 50) twoFifths.

(** One image, the crop tab, and the thin selection completed. *)
Definition thinCropSession : AppState :=
  setCompletedCrop (Some thinCrop) (setActiveTab crop_tab (session [fileA] 0)).

(** A host at pixel ratio 1 whose canvas encoder does what browsers do: a
    canvas with no pixels is encoded as ["data:,"]. *)
Definition browserCropHost : CropHost :=
  mkCropHost (Some (mkImg (ofZ 2000) (ofZ 1000) (ofZ 1000) (ofZ 500)))
             true (ofZ 1)
             (fun cv => if (canvas_width cv =? 0) || (canvas_height cv =? 0)
                        then "data:,"%string else sampleUrl)
             42.

(* ------------------------------------------------------------------------- *)
(** ** Properties of the JavaScript helpers *)

Lemma slice_prefix {A : Type} (l : list A) (i : Z) :
  -1 <= i -> slice l 0 (i + 1) = firstn (Z.to_nat (i + 1)) l.
Proof.
  intros Hi. unfold slice, clampIndex.
  replace (0 <? 0) with false by reflexivity.
  destruct (i + 1 <? 0) eqn:Hneg; [apply Z.ltb_lt in Hneg; lia|].
  set (len := Z.of_nat (List.length l)).
  assert (Hlen : 0 <= len) by (subst len; lia).
  rewrite (Z.min_l 0 len) by lia. simpl skipn.
  destruct (Z.le_ge_cases (i + 1) len) as [Hle | Hge].
  - rewrite Z.min_l by lia. rewrite Z.sub_0_r, Z.max_l by lia. reflexivity.
  - rewrite Z.min_r by lia. rewrite Z.sub_0_r, Z.max_l by lia.
    subst len. rewrite Nat2Z.id.
    rewrite firstn_all. symmetry. apply firstn_all2. lia.
Qed.

Lemma index_last {A : Type} (l : list A) (x : A) :
  index (l ++ [x]) (Z.of_nat (List.length (l ++ [x])) - 1) = Some x.
Proof.
  unfold index. rewrite length_app. simpl List.length.
  replace (Z.of_nat (List.length l + 1) - 1) with (Z.of_nat (List.length l)) by lia.
  destruct (Z.of_nat (List.length l) <? 0) eqn:H; [apply Z.ltb_lt in H; lia|].
  rewrite Nat2Z.id, nth_error_app2 by lia.
  rewrite Nat.sub_diag. reflexivity.
Qed.

Lemma repeatedly_fixed (f : AppState -> AppState) (s : AppState) :
  f s = s -> forall n, repeatedly n f s = s.
Proof.
  intros Hf n. induction n as [|n IH]; simpl; [reflexivity|].
  rewrite Hf. exact IH.
Qed.

Lemma repeatedly_succ (f : AppState -> AppState) (n : nat) (s : AppState) :
  repeatedly (S n) f s = f (repeatedly n f s).
Proof.
  revert s. induction n as [|n IH]; intros s; [reflexivity|].
  change (repeatedly (S (S n)) f s) with (repeatedly (S n) f (f s)).
  rewrite IH. reflexivity.
Qed.

(* ------------------------------------------------------------------------- *)
(** ** Edit history: commit *)

Lemma addImageToHistory_history (cl : AppState) (f : File) (s : AppState) :
  history (addImageToHistory cl f s)
  = slice (history cl) 0 (historyIndex cl + 1) ++ [f].
Proof. reflexivity. Qed.

Lemma addImageToHistory_cursor (cl : AppState) (f : File) (s : AppState) :
  historyIndex (addImageToHistory cl f s)
  = Z.of_nat (List.length (history (addImageToHistory cl f s))) - 1.
Proof. reflexivity. Qed.

Lemma addImageToHistory_current (cl : AppState) (f : File) (s : AppState) :
  currentImage (addImageToHistory cl f s) = Some f.
Proof.
  unfold currentImage. rewrite addImageToHistory_cursor, addImageToHistory_history.
  apply index_last.
Qed.

Lemma addImageToHistory_no_redo (cl : AppState) (f : File) (s : AppState) :
  canRedo (addImageToHistory cl f s) = false.
Proof.
  unfold canRedo. rewrite addImageToHistory_cursor. apply Z.ltb_irrefl.
Qed.

Lemma handleRedo_at_end (s : AppState) : canRedo s = false -> handleRedo s = s.
Proof. intros H. unfold handleRedo. rewrite H. reflexivity. Qed.

(** C1. With an image loaded (cursor at least 0), [addImageToHistory]
    replaces the history by its prefix up to the cursor followed by the new
    snapshot and puts the cursor on the last index; the new snapshot is the
    current image and no redo is possible.  In particular, from [A, B, C] at
    cursor 2, an undo moves the cursor to 1 and committing [D] then gives
    [A, B, D] at cursor 2, where no number of redos changes anything and [C]
    is no longer in the history. *)
Theorem commit_truncates_then_appends (cl : AppState) (snapshot : File) (s : AppState) :
  0 <= historyIndex cl ->
  let s' := addImageToHistory cl snapshot s in
  history s' = firstn (Z.to_nat (historyIndex cl + 1)) (history cl) ++ [snapshot]
  /\ historyIndex s' = Z.of_nat (List.length (history s')) - 1
  /\ currentImage s' = Some snapshot
  /\ canRedo s' = false
  /\ (forall n, repeatedly n handleRedo s' = s')
  /\ (forall A B C : File,
        history cl = [A; B; C] -> historyIndex cl = 2 ->
        let u := handleUndo cl in
        let c := addImageToHistory u snapshot u in
        historyIndex u = 1 /\ history u = [A; B; C]
        /\ history c = [A; B; snapshot] /\ historyIndex c = 2
        /\ (forall n, repeatedly n handleRedo c = c)
        /\ (C <> A -> C <> B -> C <> snapshot -> ~ In C (history c))).
Proof.
  intros Hcur s'. subst s'.
  split; [|split; [|split; [|split; [|split]]]].
  - rewrite addImageToHistory_history, slice_prefix by lia. reflexivity.
  - apply addImageToHistory_cursor.
  - apply addImageToHistory_current.
  - apply addImageToHistory_no_redo.
  - apply repeatedly_fixed, handleRedo_at_end, addImageToHistory_no_redo.
  - intros A B C Hh Hi u c.
    assert (Hu : historyIndex u = 1 /\ history u = [A; B; C]).
    { subst u. unfold handleUndo, canUndo. rewrite Hi. simpl. split; [reflexivity | exact Hh]. }
    destruct Hu as [Hui Huh].
    assert (Hc : history c = [A; B; snapshot]).
    { subst c. rewrite addImageToHistory_history, Huh, Hui. reflexivity. }
    split; [exact Hui|]. split; [exact Huh|]. split; [exact Hc|].
    split; [change (historyIndex c) with (Z.of_nat (List.length (history c)) - 1);
            rewrite Hc; reflexivity|].
    split.
    + apply repeatedly_fixed, handleRedo_at_end. subst c.
      apply addImageToHistory_no_redo.
    + intros HA HB HD Hin. rewrite Hc in Hin. simpl in Hin.
      destruct Hin as [E | [E | [E | []]]]; congruence.
Qed.

Lemma commit_truncates_then_appends_witness :
  0 <= historyIndex (session [fileA; fileB; fileC] 1)
  /\ history (addImageToHistory (session [fileA; fileB; fileC] 1) fileD
                (session [fileA; fileB; fileC] 1))
     = [fileA; fileB; fileD].
Proof.
  split; [vm_compute; discriminate|].
  exact (proj1 (commit_truncates_then_appends
                  (session [fileA; fileB; fileC] 1) fileD
                  (session [fileA; fileB; fileC] 1)
                  ltac:(vm_compute; discriminate))).
Defined.

Lemma request_without_image (k : AsyncEdit) (s : AppState) :
  currentImage s = None ->
  exists msg, request k s = Return (setError (Some msg) s).
Proof.
  intros H. destruct k; simpl;
    unfold handleGenerate, handleApplyFilter, handleApplyAdjustment;
    rewrite H; eexists; reflexivity.
Qed.

(** C2, as the claim states it, fails: with no image loaded (empty history,
    cursor -1) [addImageToHistory] does not leave the history empty, it
    appends the snapshot. *)
Lemma commit_without_image_appends :
  history initialState = []
  /\ historyIndex initialState = -1
  /\ history (addImageToHistory initialState fileA initialState) = [fileA]
  /\ history (addImageToHistory initialState fileA initialState)
     <> history initialState.
Proof. repeat split; discriminate. Qed.

(** C2, amended.  [addImageToHistory] has no failure path: whatever the
    cursor, it returns a state whose current image is the new snapshot and it
    reports no error; from the empty history at cursor -1 the result is the
    one-element history at cursor 0.  The check for a missing image is made
    by the edit handlers, which report it and start no call, so that no commit
    is attempted. *)
Theorem commit_never_fails (cl : AppState) (snapshot : File) (s : AppState) :
  let s' := addImageToHistory cl snapshot s in
  currentImage s' = Some snapshot
  /\ error s' = error s
  /\ (historyIndex cl = -1 ->
      history s' = [snapshot] /\ historyIndex s' = 0)
  /\ (forall k, currentImage s = None ->
      callOf (request k s) = None
      /\ exists msg, request k s = Return (setError (Some msg) s)).
Proof.
  intros s'. subst s'. split; [apply addImageToHistory_current|].
  split; [reflexivity|]. split.
  - intros Hi.
    assert (Hh : history (addImageToHistory cl snapshot s) = [snapshot]).
    { rewrite addImageToHistory_history, slice_prefix by lia.
      rewrite Hi. reflexivity. }
    split; [exact Hh|]. rewrite addImageToHistory_cursor, Hh. reflexivity.
  - intros k Hnone. destruct (request_without_image k s Hnone) as [msg Hreq].
    rewrite Hreq. split; [reflexivity|]. exists msg. reflexivity.
Qed.

Lemma commit_never_fails_witness :
  historyIndex initialState = -1
  /\ history (addImageToHistory initialState fileA initialState) = [fileA]
  /\ historyIndex (addImageToHistory initialState fileA initialState) = 0.
Proof.
  split; [reflexivity|].
  exact (proj1 (proj2 (proj2 (commit_never_fails initialState fileA initialState)))
           eq_refl).
Defined.

(* ------------------------------------------------------------------------- *)
(** ** Edit history: the invariant *)

Lemma wellFormed_initial : wellFormed initialState.
Proof. left. split; reflexivity. Qed.

Lemma wellFormed_upload (file : File) (s : AppState) :
  wellFormed (handleImageUpload file s).
Proof. right. simpl. lia. Qed.

Lemma wellFormed_commit (cl : AppState) (f : File) (s : AppState) :
  wellFormed (addImageToHistory cl f s).
Proof.
  right. rewrite addImageToHistory_cursor, addImageToHistory_history.
  rewrite length_app. simpl List.length. lia.
Qed.

Lemma wellFormed_undo (s : AppState) : wellFormed s -> wellFormed (handleUndo s).
Proof.
  intros H. unfold handleUndo, canUndo.
  destruct (0 <? historyIndex s) eqn:E; [|exact H].
  apply Z.ltb_lt in E. right. simpl. destruct H as [[_ H] | H]; lia.
Qed.

Lemma wellFormed_redo (s : AppState) : wellFormed s -> wellFormed (handleRedo s).
Proof.
  intros H. unfold handleRedo, canRedo.
  destruct (historyIndex s <? Z.of_nat (List.length (history s)) - 1) eqn:E;
    [|exact H].
  apply Z.ltb_lt in E. right. simpl. destruct H as [[_ H] | H]; lia.
Qed.

Lemma wellFormed_reset (confirmed : bool) (s : AppState) :
  wellFormed s -> wellFormed (handleReset confirmed s).
Proof.
  intros H. unfold handleReset.
  destruct (0 <? Z.of_nat (List.length (history s))) eqn:E; [|exact H].
  destruct confirmed; [|exact H].
  apply Z.ltb_lt in E. right. simpl. lia.
Qed.

Lemma wellFormed_new (confirmed : bool) (s : AppState) :
  wellFormed s -> wellFormed (handleNewImage confirmed s).
Proof.
  intros H. destruct confirmed; [|exact H]. left. split; reflexivity.
Qed.

Lemma wellFormed_resume (atob : string -> Completion string) (k : AsyncEdit)
    (cl : AppState) (outcome : Completion string) (now : Z) (s : AppState) :
  wellFormed s -> wellFormed (resume atob k cl outcome now s).
Proof.
  intros H.
  assert (Hkeep : forall m, wellFormed (setIsLoading false (setError m s)))
    by (intros m; exact H).
  assert (Hadd : forall f,
            wellFormed (setIsLoading false (addImageToHistory cl f s))
            /\ wellFormed (setIsLoading false (setDisplayHotspot None
                 (setEditHotspot None (addImageToHistory cl f s)))))
    by (intros f; split; apply (wellFormed_commit cl f s)).
  destruct k; unfold resume, handleGenerate_resume, handleApplyFilter_resume,
    handleApplyAdjustment_resume;
    (destruct outcome as [url | e]; [|apply Hkeep]);
    match goal with
    | |- context [dataURLtoFile ?a ?u ?n] =>
        destruct (dataURLtoFile a u n) as [f | e]
    end; try apply Hkeep; apply Hadd.
Qed.

(* ------------------------------------------------------------------------- *)
(** ** Edit history: reset *)

Lemma handleReset_confirmed (s : AppState) :
  history s <> [] ->
  handleReset true s
  = setCompletedCrop None
      (setCrop None
        (setDisplayHotspot None
          (setEditHotspot None
            (setError None
              (setHistoryIndex 0 s))))).
Proof.
  intros Hne. unfold handleReset.
  destruct (history s) as [|f l] eqn:Hh; [congruence|]. reflexivity.
Qed.

Lemma handleReset_declined (s : AppState) : handleReset false s = s.
Proof. unfold handleReset. rewrite andb_false_r. reflexivity. Qed.

Lemma handleRedo_moves (s : AppState) :
  historyIndex s < Z.of_nat (List.length (history s)) - 1 ->
  historyIndex (handleRedo s) = historyIndex s + 1
  /\ history (handleRedo s) = history s.
Proof.
  intros H. unfold handleRedo, canRedo.
  apply Z.ltb_lt in H. rewrite H. split; reflexivity.
Qed.

Lemma redo_from_start (s : AppState) (n : nat) :
  historyIndex s = 0 ->
  Z.of_nat n <= Z.of_nat (List.length (history s)) - 1 ->
  historyIndex (repeatedly n handleRedo s) = Z.of_nat n
  /\ history (repeatedly n handleRedo s) = history s.
Proof.
  intros H0. induction n as [|n IH]; intros Hn.
  - simpl. auto.
  - rewrite repeatedly_succ.
    destruct IH as [IHi IHh]; [lia|].
    destruct (handleRedo_moves (repeatedly n handleRedo s)) as [Hi Hh].
    + rewrite IHi, IHh. lia.
    + rewrite Hi, Hh, IHi, IHh. split; [lia | reflexivity].
Qed.

(** C9. On a non-empty history a confirmed [handleReset] puts the cursor on
    0 and keeps the whole sequence, and doing it again changes nothing;
    afterwards [k] redos reach cursor [k] for every [k] up to the cursor
    before the reset, where the image shown before the reset is the current
    one again; a commit made right after the reset leaves the original
    followed by the new snapshot, at cursor 1. *)
Theorem reset_keeps_sequence (s : AppState) :
  history s <> [] ->
  let r := handleReset true s in
  historyIndex r = 0
  /\ history r = history s
  /\ handleReset true r = r
  /\ (0 <= historyIndex s < Z.of_nat (List.length (history s)) ->
      (forall k : nat, Z.of_nat k <= historyIndex s ->
         historyIndex (repeatedly k handleRedo r) = Z.of_nat k
         /\ history (repeatedly k handleRedo r) = history s)
      /\ currentImage (repeatedly (Z.to_nat (historyIndex s)) handleRedo r)
         = currentImage s)
  /\ (forall snapshot : File,
        exists original,
          originalImage s = Some original
          /\ history (addImageToHistory r snapshot r) = [original; snapshot]
          /\ historyIndex (addImageToHistory r snapshot r) = 1).
Proof.
  intros Hne r.
  assert (Hr : r = setCompletedCrop None (setCrop None (setDisplayHotspot None
                 (setEditHotspot None (setError None (setHistoryIndex 0 s))))))
    by (apply handleReset_confirmed; exact Hne).
  assert (Hri : historyIndex r = 0) by (rewrite Hr; reflexivity).
  assert (Hrh : history r = history s) by (rewrite Hr; reflexivity).
  split; [exact Hri|]. split; [exact Hrh|]. split.
  - rewrite handleReset_confirmed by (rewrite Hrh; exact Hne).
    rewrite Hr. reflexivity.
  - split.
    + intros Hwf.
      assert (Hall : forall k : nat, Z.of_nat k <= historyIndex s ->
                historyIndex (repeatedly k handleRedo r) = Z.of_nat k
                /\ history (repeatedly k handleRedo r) = history s).
      { intros k Hk. rewrite <- Hrh. apply redo_from_start; [exact Hri|].
        rewrite Hrh. lia. }
      split; [exact Hall|].
      destruct (Hall (Z.to_nat (historyIndex s))) as [Hi Hh]; [lia|].
      unfold currentImage. rewrite Hi, Hh, Z2Nat.id by lia. reflexivity.
    + intros snapshot. destruct (history s) as [|original rest] eqn:Hh; [congruence|].
      exists original. split; [unfold originalImage; rewrite Hh; reflexivity|].
      assert (Hc : history (addImageToHistory r snapshot r) = [original; snapshot]).
      { rewrite addImageToHistory_history, Hri, Hrh, slice_prefix by lia.
        reflexivity. }
      split; [exact Hc|]. rewrite addImageToHistory_cursor, Hc. reflexivity.
Qed.

Lemma reset_keeps_sequence_witness :
  history (session [fileA; fileB; fileC] 2) <> []
  /\ historyIndex (handleReset true (session [fileA; fileB; fileC] 2)) = 0
  /\ history (handleReset true (session [fileA; fileB; fileC] 2))
     = [fileA; fileB; fileC].
Proof.
  split; [discriminate|].
  pose proof (reset_keeps_sequence (session [fileA; fileB; fileC] 2)
                ltac:(discriminate)) as H.
  split; [exact (proj1 H) | exact (proj1 (proj2 H))].
Defined.

(* ------------------------------------------------------------------------- *)
(** ** Coordinate mapping: pointer to native pixels *)

Lemma handleImageClick_active (e : ClickEvent) (s : AppState) :
  activeTab s = retouch -> isLoading s = false ->
  handleImageClick e s
  = setDisplayHotspot
      (Some (mkPoint (sub (clientX e) (rect_left e)) (sub (clientY e) (rect_top e))))
      (setEditHotspot
        (Some (mkPoint
          (Math_round (mul (div (sub (clientX e) (rect_left e)) (rect_width e))
                           (naturalWidth e)))
          (Math_round (mul (div (sub (clientY e) (rect_top e)) (rect_height e))
                           (naturalHeight e)))))
        s).
Proof.
  intros Ht Hl. unfold handleImageClick. rewrite Ht, Hl. reflexivity.
Qed.

Lemma handleImageClick_inactive (e : ClickEvent) (s : AppState) :
  activeTab s <> retouch \/ isLoading s = true -> handleImageClick e s = s.
Proof.
  intros [Ht | Hl]; unfold handleImageClick.
  - destruct (activeTab s); [congruence| | |]; reflexivity.
  - rewrite Hl, orb_true_r. reflexivity.
Qed.

(** Division by a zero gives NaN or an infinity. *)
Lemma div_by_zero (p w : number) : isZero w = true -> isFinite (div p w) = false.
Proof.
  unfold isZero, isFinite, div. rewrite FloatAxioms.div_spec.
  destruct (FloatOps.Prim2SF w); try discriminate. intros _.
  destruct (FloatOps.Prim2SF p); reflexivity.
Qed.

(** A product with NaN or an infinity is NaN or an infinity. *)
Lemma mul_not_finite (a b : number) : isFinite a = false -> isFinite (mul a b) = false.
Proof.
  unfold isFinite, mul. rewrite FloatAxioms.mul_spec.
  destruct (FloatOps.Prim2SF a); try discriminate; intros _;
    destruct (FloatOps.Prim2SF b); reflexivity.
Qed.

Lemma Math_round_not_finite (a : number) : isFinite a = false -> Math_round a = a.
Proof.
  unfold isFinite, Math_round. intros H.
  rewrite FloatAxioms.ltb_spec, FloatAxioms.abs_spec.
  destruct (FloatOps.Prim2SF a) as [sg|sg| |sg m e]; try discriminate; reflexivity.
Qed.

Lemma native_coordinate_zero_size (p w n : number) :
  isZero w = true -> isFinite (Math_round (mul (div p w) n)) = false.
Proof.
  intros Hw.
  assert (H : isFinite (mul (div p w) n) = false)
    by (apply mul_not_finite, div_by_zero, Hw).
  rewrite (Math_round_not_finite _ H). exact H.
Qed.

(** C7. For a click on the retouch tab with no edit loading, the display
    hotspot is the pointer offset, client position minus the corner of the
    bounding rectangle, and the native hotspot is what the contract
    [toNative] gives for that offset, the size of the bounding rectangle and
    the natural size: [round (offset.x / rendered width * natural width)] and
    likewise for [y], in the arithmetic of doubles; no relation between the
    two sizes is assumed.  With natural size 2000 by 1000 rendered at 1000 by
    500, the offset (500, 250) gives (1000, 500); with natural size 2000 by
    1500 rendered at 800 by 40, the offset (201, 23) gives (502, 862); an
    exact half is rounded up. *)
Theorem pointer_to_native (e : ClickEvent) (s : AppState) :
  activeTab s = retouch -> isLoading s = false ->
  let pointerPos :=
    mkPoint (sub (clientX e) (rect_left e)) (sub (clientY e) (rect_top e)) in
  displayHotspot (handleImageClick e s) = Some pointerPos
  /\ editHotspot (handleImageClick e s)
     = Some (toNative pointerPos (rect_width e) (rect_height e)
                      (naturalWidth e) (naturalHeight e))
  /\ (pointerPos = mkPoint (ofZ 500) (ofZ 250) ->
      rect_width e = ofZ 1000 -> rect_height e = ofZ 500 ->
      naturalWidth e = ofZ 2000 -> naturalHeight e = ofZ 1000 ->
      editHotspot (handleImageClick e s) = Some (mkPoint (ofZ 1000) (ofZ 500)))
  /\ (pointerPos = mkPoint (ofZ 201) (ofZ 23) ->
      rect_width e = ofZ 800 -> rect_height e = ofZ 40 ->
      naturalWidth e = ofZ 2000 -> naturalHeight e = ofZ 1500 ->
      editHotspot (handleImageClick e s) = Some (mkPoint (ofZ 502) (ofZ 862)))
  /\ (pointerPos = mkPoint (ofZ 1) (ofZ 3) ->
      rect_width e = ofZ 4 -> rect_height e = ofZ 4 ->
      naturalWidth e = ofZ 2 -> naturalHeight e = ofZ 2 ->
      editHotspot (handleImageClick e s) = Some (mkPoint (ofZ 1) (ofZ 2))).
Proof.
  intros Ht Hl pointerPos.
  assert (Hedit : editHotspot (handleImageClick e s)
                  = Some (toNative pointerPos (rect_width e) (rect_height e)
                                   (naturalWidth e) (naturalHeight e))).
  { rewrite handleImageClick_active by assumption. reflexivity. }
  split; [rewrite handleImageClick_active by assumption; reflexivity|].
  split; [exact Hedit|].
  repeat split; intros Hp Hw Hh Hnw Hnh;
    rewrite Hedit, Hp, Hw, Hh, Hnw, Hnh; vm_compute; reflexivity.
Qed.

Lemma pointer_to_native_witness :
  editHotspot
    (handleImageClick
       (mkClick (ofZ 520) (ofZ 260) (ofZ 2000) (ofZ 1000)
                (ofZ 20) (ofZ 10) (ofZ 1000) (ofZ 500))
       (session [fileA] 0))
  = Some (mkPoint (ofZ 1000) (ofZ 500)).
Proof.
  exact (proj1 (proj2 (proj2 (pointer_to_native
           (mkClick (ofZ 520) (ofZ 260) (ofZ 2000) (ofZ 1000)
                    (ofZ 20) (ofZ 10) (ofZ 1000) (ofZ 500))
           (session [fileA] 0) eq_refl eq_refl)))
         ltac:(vm_compute; reflexivity) eq_refl eq_refl eq_refl eq_refl).
Defined.

(** C8, as the claim states it, fails: with a rendered size of zero the
    click is not skipped; the hotspot is updated, to a point whose
    coordinates are not numbers of pixels. *)
Lemma zero_size_click_sets_hotspot :
  rect_width zeroSizeClick = ofZ 0
  /\ rect_height zeroSizeClick = ofZ 0
  /\ handleImageClick zeroSizeClick (session [fileA] 0) <> session [fileA] 0
  /\ editHotspot (handleImageClick zeroSizeClick (session [fileA] 0))
     = Some (mkPoint PrimFloat.infinity PrimFloat.nan).
Proof.
  split; [reflexivity|]. split; [reflexivity|]. split.
  - intros H. apply (f_equal editHotspot) in H. vm_compute in H. discriminate H.
  - vm_compute. reflexivity.
Qed.

(** C8, amended.  [handleImageClick] has no guard on the rendered size.  The
    handler skips a click in the two cases it tests, another tab than retouch
    or an edit loading; in every other case it sets the hotspot, and when the
    rendered width (height) is zero the native x (y) it stores is NaN or an
    infinity. *)
Theorem click_guard_is_tab_and_loading (e : ClickEvent) (s : AppState) :
  (activeTab s <> retouch \/ isLoading s = true -> handleImageClick e s = s)
  /\ (activeTab s = retouch -> isLoading s = false ->
      exists p,
        editHotspot (handleImageClick e s) = Some p
        /\ (isZero (rect_width e) = true -> isFinite (px p) = false)
        /\ (isZero (rect_height e) = true -> isFinite (py p) = false)).
Proof.
  split; [apply handleImageClick_inactive|].
  intros Ht Hl. eexists. split.
  - rewrite handleImageClick_active by assumption. reflexivity.
  - cbn [px py]. split; intros H; apply native_coordinate_zero_size; exact H.
Qed.

Lemma click_guard_is_tab_and_loading_witness :
  handleImageClick zeroSizeClick (setIsLoading true (session [fileA] 0))
  = setIsLoading true (session [fileA] 0).
Proof.
  exact (proj1 (click_guard_is_tab_and_loading zeroSizeClick
                  (setIsLoading true (session [fileA] 0)))
           (or_intror eq_refl)).
Defined.

(* ------------------------------------------------------------------------- *)
(** ** Coordinate mapping: crop rasterisation *)

Lemma truthy_number_false (a : number) :
  truthy_number a = false <-> a = zero \/ a = PrimFloat.opp zero \/ a = PrimFloat.nan.
Proof.
  split.
  - unfold truthy_number. intros H.
    rewrite <- (FloatAxioms.SF2Prim_Prim2SF a).
    destruct (FloatOps.Prim2SF a) as [[|]|sg| |sg m e]; try discriminate.
    + right. left. reflexivity.
    + left. reflexivity.
    + right. right. reflexivity.
  - intros [-> | [-> | ->]]; reflexivity.
Qed.

(** C6, as the claim states it, fails: on an image of natural size 2000 by
    2000 rendered at 1000 by 1000, a crop selection of 50 by 50 displayed
    pixels covers 100 by 100 native pixels (the source rectangle of the draw
    call), and at device pixel ratio 2 the raster is 100 by 100, not 200 by
    200. *)
Lemma crop_raster_not_native_size :
  let cv := cropCanvas (mkPixelCrop (ofZ 0) (ofZ 0) (ofZ 50) (ofZ 50))
                       (mkImg (ofZ 2000) (ofZ 2000) (ofZ 1000) (ofZ 1000))
                       (ofZ 2) in
  draw_sw (canvas_draw cv) = ofZ 100
  /\ draw_sh (canvas_draw cv) = ofZ 100
  /\ canvas_width cv = 100 /\ canvas_height cv = 100
  /\ canvas_width cv <> 100 * 2.
Proof. repeat split; vm_compute; try reflexivity; discriminate. Qed.

(** C6, amended.  The raster of a crop has the size of the selection in
    displayed pixels multiplied, as doubles, by the pixel ratio, each product
    truncated to an integer (a value above 2^31 - 1 giving the default size of
    a canvas); the pixel ratio is the device pixel ratio, or 1 when that is
    +0, -0 or NaN; the context's transform is scaled by the same ratio; the
    image element plays no part in the size, its natural and rendered size
    giving only the source rectangle of the draw call.  A selection of 100 by
    100 displayed pixels at device pixel ratio 2 gives a raster of 200 by
    200, one of 50 by 100 at ratio 1.2 gives 60 by 120, and at ratio 0 the
    raster has the size of the selection. *)
Theorem crop_raster_is_displayed_size_times_ratio
    (cc : PixelCrop) (image : HTMLImageElement) (dpr : number) :
  let cv := cropCanvas cc image dpr in
  let size default v :=
    let n := truncate v mod 2 ^ 32 in
    if n <=? 2147483647 then n else default in
  (dpr <> zero -> dpr <> PrimFloat.opp zero -> dpr <> PrimFloat.nan ->
   canvas_width cv = size 300 (mul (pc_width cc) dpr)
   /\ canvas_height cv = size 150 (mul (pc_height cc) dpr)
   /\ canvas_transform cv = (dpr, ofZ 0, ofZ 0, dpr, ofZ 0, ofZ 0))
  /\ (dpr = zero \/ dpr = PrimFloat.opp zero \/ dpr = PrimFloat.nan ->
      canvas_width cv = size 300 (mul (pc_width cc) (ofZ 1))
      /\ canvas_height cv = size 150 (mul (pc_height cc) (ofZ 1))
      /\ canvas_transform cv = (ofZ 1, ofZ 0, ofZ 0, ofZ 1, ofZ 0, ofZ 0))
  /\ (forall image',
        canvas_width (cropCanvas cc image' dpr) = canvas_width cv
        /\ canvas_height (cropCanvas cc image' dpr) = canvas_height cv)
  /\ draw_sw (canvas_draw cv)
     = mul (pc_width cc) (div (img_naturalWidth image) (img_width image))
  /\ draw_sh (canvas_draw cv)
     = mul (pc_height cc) (div (img_naturalHeight image) (img_height image))
  /\ draw_dw (canvas_draw cv) = pc_width cc
  /\ draw_dh (canvas_draw cv) = pc_height cc
  /\ (pc_width cc = ofZ 100 -> pc_height cc = ofZ 100 -> dpr = ofZ 2 ->
      canvas_width cv = 200 /\ canvas_height cv = 200)
  /\ (pc_width cc = ofZ 50 -> pc_height cc = ofZ 100 -> dpr = ratio12 ->
      canvas_width cv = 60 /\ canvas_height cv = 120)
  /\ (pc_width cc = ofZ 50 -> pc_height cc = ofZ 100 -> dpr = ofZ 0 ->
      canvas_width cv = 50 /\ canvas_height cv = 100).
Proof.
  intros cv size. subst cv size. unfold cropCanvas, or_number.
  cbn [canvas_width canvas_height canvas_transform canvas_draw
       draw_sw draw_sh draw_dw draw_dh].
  split.
  { intros H0 H1 H2.
    destruct (truthy_number dpr) eqn:E; [repeat split|].
    apply truthy_number_false in E. destruct E as [E | [E | E]]; congruence. }
  split.
  { intros H. apply truthy_number_false in H. rewrite H. repeat split. }
  split; [intros image'; split; reflexivity|].
  do 4 (split; [reflexivity|]).
  split; [|split]; intros Hw Hh Hd; rewrite Hw, Hh, Hd; vm_compute;
    split; reflexivity.
Qed.

Lemma crop_raster_is_displayed_size_times_ratio_witness :
  canvas_width
    (cropCanvas (mkPixelCrop (ofZ 10) (ofZ 20) (ofZ 50) (ofZ 100))
                (mkImg (ofZ 2000) (ofZ 1000) (ofZ 1000) (ofZ 500)) ratio12) = 60
  /\ canvas_height
    (cropCanvas (mkPixelCrop (ofZ 10) (ofZ 20) (ofZ 50) (ofZ 100))
                (mkImg (ofZ 2000) (ofZ 1000) (ofZ 1000) (ofZ 500)) ratio12) = 120.
Proof.
  exact (proj1 (proj2 (proj2 (proj2 (proj2 (proj2 (proj2 (proj2 (proj2
    (crop_raster_is_displayed_size_times_ratio
       (mkPixelCrop (ofZ 10) (ofZ 20) (ofZ 50) (ofZ 100))
       (mkImg (ofZ 2000) (ofZ 1000) (ofZ 1000) (ofZ 500)) ratio12)))))))))
    eq_refl eq_refl eq_refl).
Defined.

(* ------------------------------------------------------------------------- *)
(** ** Transient state: hotspot and pending crop *)

(** C5, as the claim states it, fails at three places: a tab switch keeps the
    hotspot; an undo moves the cursor and keeps the completed crop; a filter
    that succeeds commits a snapshot and keeps the hotspot. *)
Lemma stale_transient_state_survives :
  editHotspot (handleTabChange adjust markedSession) = Some samplePoint
  /\ displayHotspot (handleTabChange adjust markedSession) = Some samplePoint
  /\ historyIndex (handleUndo markedSession) = 0
  /\ completedCrop (handleUndo markedSession) = Some sampleCrop
  /\ List.length
       (history (handleApplyFilter_resume atobIdentity markedSession
                   (Normal sampleUrl) 0 markedSession)) = 3%nat
  /\ editHotspot (handleApplyFilter_resume atobIdentity markedSession
                    (Normal sampleUrl) 0 markedSession) = Some samplePoint.
Proof. repeat split. Qed.

(** C5, amended.  Every commit clears the pending crop, and the commit of a
    retouch also clears the hotspot; an undo or a redo that moves the cursor
    clears the hotspot; a confirmed reset clears both; a tab switch clears
    neither, it changes the active tab (and the side-by-side flag) only, and
    on another tab than retouch the hotspot marker is not drawn. *)
Theorem transient_state_cleared (atob : string -> Completion string) (s : AppState) :
  (forall cl f,
     crop (addImageToHistory cl f s) = None
     /\ completedCrop (addImageToHistory cl f s) = None)
  /\ (forall cl url now f,
        dataURLtoFile atob url (fileName Retouch now) = Normal f ->
        let s' := handleGenerate_resume atob cl (Normal url) now s in
        history s' = history (addImageToHistory cl f s)
        /\ editHotspot s' = None /\ displayHotspot s' = None
        /\ crop s' = None /\ completedCrop s' = None)
  /\ (canUndo s = true ->
        historyIndex (handleUndo s) = historyIndex s - 1
        /\ editHotspot (handleUndo s) = None
        /\ displayHotspot (handleUndo s) = None)
  /\ (canRedo s = true ->
        historyIndex (handleRedo s) = historyIndex s + 1
        /\ editHotspot (handleRedo s) = None
        /\ displayHotspot (handleRedo s) = None)
  /\ (history s <> [] ->
        let r := handleReset true s in
        editHotspot r = None /\ displayHotspot r = None
        /\ crop r = None /\ completedCrop r = None)
  /\ (forall tab,
        let s' := handleTabChange tab s in
        activeTab s' = tab
        /\ editHotspot s' = editHotspot s
        /\ displayHotspot s' = displayHotspot s
        /\ crop s' = crop s /\ completedCrop s' = completedCrop s
        /\ history s' = history s /\ historyIndex s' = historyIndex s
        /\ (tab <> retouch -> hotspotMarkerShown s' = false)).
Proof.
  split; [intros cl f; split; reflexivity|].
  split.
  { intros cl url now f Hf s'. subst s'. unfold handleGenerate_resume.
    change ("modifiee-" ++ showZ now ++ ".png")%string with (fileName Retouch now).
    rewrite Hf. repeat split. }
  split.
  { intros Hu. unfold handleUndo. rewrite Hu. repeat split. }
  split.
  { intros Hr. unfold handleRedo. rewrite Hr. repeat split. }
  split.
  { intros Hne r. subst r. rewrite handleReset_confirmed by exact Hne.
    repeat split. }
  intros tab s'. subst s'. unfold handleTabChange.
  destruct (isSideBySide s && _) eqn:E.
  - repeat split. intros Ht. unfold hotspotMarkerShown.
    cbn [activeTab setIsSideBySide setActiveTab].
    destruct tab; [congruence| | |]; cbn [isRetouch];
      rewrite andb_false_r; reflexivity.
  - repeat split. intros Ht. unfold hotspotMarkerShown.
    cbn [activeTab setActiveTab].
    destruct tab; [congruence| | |]; cbn [isRetouch];
      rewrite andb_false_r; reflexivity.
Qed.

Lemma transient_state_cleared_witness :
  canUndo markedSession = true
  /\ editHotspot (handleUndo markedSession) = None
  /\ displayHotspot (handleUndo markedSession) = None.
Proof.
  split; [reflexivity|].
  exact (proj2 (proj1 (proj2 (proj2 (transient_state_cleared atobIdentity markedSession)))
                  eq_refl)).
Defined.

(* ------------------------------------------------------------------------- *)
(** ** Failing edits *)

Lemma request_returns (k : AsyncEdit) (s s' : AppState) :
  request k s = Return s' -> exists msg, s' = setError (Some msg) s.
Proof.
  destruct k; simpl;
    unfold handleGenerate, handleApplyFilter, handleApplyAdjustment;
    destruct (currentImage s);
    try destruct (truthy_string (trim (prompt s)));
    try destruct (editHotspot s);
    simpl; intros H; inversion H; eexists; reflexivity.
Qed.

Lemma request_awaits (k : AsyncEdit) (s s' : AppState) (call : ServiceCall) :
  request k s = Await s' call -> s' = setError None (setIsLoading true s).
Proof.
  destruct k; simpl;
    unfold handleGenerate, handleApplyFilter, handleApplyAdjustment;
    destruct (currentImage s);
    try destruct (truthy_string (trim (prompt s)));
    try destruct (editHotspot s);
    simpl; intros H; inversion H; reflexivity.
Qed.

Lemma resume_failed (atob : string -> Completion string) (k : AsyncEdit)
    (cl : AppState) (outcome : Completion string) (now : Z) (s : AppState)
    (err : Thrown) :
  decoded atob k outcome now = Throw err ->
  resume atob k cl outcome now s
  = setIsLoading false
      (setError (Some (failurePrefix k ++ errorMessage err)%string) s).
Proof.
  intros H.
  destruct k; unfold resume, decoded, fileName, failurePrefix in *;
    unfold handleGenerate_resume, handleApplyFilter_resume,
           handleApplyAdjustment_resume;
    (destruct outcome as [url | e]; [rewrite H | inversion H]); reflexivity.
Qed.

Lemma resume_succeeded (atob : string -> Completion string) (k : AsyncEdit)
    (cl : AppState) (outcome : Completion string) (now : Z) (s : AppState)
    (f : File) :
  decoded atob k outcome now = Normal f ->
  history (resume atob k cl outcome now s) = history (addImageToHistory cl f s)
  /\ historyIndex (resume atob k cl outcome now s)
     = historyIndex (addImageToHistory cl f s)
  /\ isLoading (resume atob k cl outcome now s) = false.
Proof.
  intros H.
  destruct k; unfold resume, decoded, fileName in *;
    unfold handleGenerate_resume, handleApplyFilter_resume,
           handleApplyAdjustment_resume;
    (destruct outcome as [url | e]; [rewrite H | discriminate]); repeat split.
Qed.

(** X22. A failing edit of one of the three service-backed kinds leaves
    the history and the cursor as they are.  A request refused by validation
    (no current image; for a retouch a blank instruction or no hotspot) only
    sets the error message, the handler's own text for that case: it does not
    set [isLoading] and starts no call; a crop without selection or image
    element, or without drawing context, likewise only sets its message.  A
    request whose promise is rejected, or whose result does not decode into a
    file, ends with the history and the cursor of the live state unchanged,
    [isLoading] false, and as error message the handler's prefix followed by
    the message of the error, or by the unknown-error text for a thrown value
    that is no [Error].  A crop whose data URL does not decode ends by that
    exception with no setter called. *)
Theorem failed_edit_keeps_history (atob : string -> Completion string) (s : AppState) :
  (forall k s',
     request k s = Return s' ->
     history s' = history s /\ historyIndex s' = historyIndex s
     /\ isLoading s' = isLoading s /\ exists msg, error s' = Some msg)
  /\ (forall k,
        currentImage s = None ->
        request k s
        = Return (setError
            (Some match k with
                  | Retouch => "Aucune image chargée à modifier."
                  | Filter _ => "Aucune image chargée pour appliquer un filtre."
                  | Adjustment _ => "Aucune image chargée pour appliquer un ajustement."
                  end%string) s))
  /\ (currentImage s <> None -> trim (prompt s) = EmptyString ->
      request Retouch s
      = Return (setError
          (Some "Veuillez entrer une description pour votre modification."%string) s))
  /\ (currentImage s <> None -> trim (prompt s) <> EmptyString ->
      editHotspot s = None ->
      request Retouch s
      = Return (setError
          (Some "Veuillez cliquer sur l'image pour sélectionner une zone à modifier."%string) s))
  /\ (forall k cl outcome now err,
        decoded atob k outcome now = Throw err ->
        let s' := resume atob k cl outcome now s in
        history s' = history s /\ historyIndex s' = historyIndex s
        /\ isLoading s' = false
        /\ error s'
           = Some (match k with
                   | Retouch => "Échec de la génération de l'image. "
                   | Filter _ => "Échec de l'application du filtre. "
                   | Adjustment _ => "Échec de l'application de l'ajustement. "
                   end
                   ++ match err with
                      | ErrorObject message => message
                      | NotAnError => "Une erreur inconnue est survenue."
                      end)%string)
  /\ (forall h,
        completedCrop s = None \/ imgRef_current h = None ->
        handleApplyCrop atob h s
        = Normal (setError (Some "Veuillez sélectionner une zone à rogner."%string) s))
  /\ (forall h,
        completedCrop s <> None -> imgRef_current h <> None ->
        context2d h = false ->
        handleApplyCrop atob h s
        = Normal (setError (Some "Impossible de traiter le rognage."%string) s))
  /\ (forall h cc image err,
        completedCrop s = Some cc -> imgRef_current h = Some image ->
        context2d h = true ->
        dataURLtoFile atob
          (toDataURL h (cropCanvas cc image (window_devicePixelRatio h)))
          ("rognee-" ++ showZ (crop_now h) ++ ".png") = Throw err ->
        handleApplyCrop atob h s = Throw err).
Proof.
  split.
  { intros k s' H. destruct (request_returns k s s' H) as [msg ->].
    repeat split. exists msg. reflexivity. }
  split.
  { intros k Hn. destruct k; simpl;
      unfold handleGenerate, handleApplyFilter, handleApplyAdjustment;
      rewrite Hn; reflexivity. }
  split.
  { intros Hi Hp. simpl. unfold handleGenerate.
    destruct (currentImage s); [|congruence]. rewrite Hp. reflexivity. }
  split.
  { intros Hi Hp Hh. simpl. unfold handleGenerate.
    destruct (currentImage s); [|congruence].
    destruct (trim (prompt s)); [congruence|]. cbn [truthy_string negb].
    rewrite Hh. reflexivity. }
  split.
  { intros k cl outcome now err H s'. subst s'.
    rewrite (resume_failed atob k cl outcome now s err H).
    destruct k; repeat split. }
  split.
  { intros h H. unfold handleApplyCrop.
    destruct (completedCrop s) as [cc|]; [|reflexivity].
    destruct (imgRef_current h) as [image|]; [|reflexivity].
    destruct H as [H | H]; discriminate. }
  split.
  { intros h Hc Hi Hx. unfold handleApplyCrop.
    destruct (completedCrop s) as [cc|]; [|congruence].
    destruct (imgRef_current h) as [image|]; [|congruence].
    rewrite Hx. reflexivity. }
  intros h cc image err Hc Hi Hx Hd. unfold handleApplyCrop.
  rewrite Hc, Hi, Hx, Hd. reflexivity.
Qed.

Lemma failed_edit_keeps_history_witness :
  decoded atobIdentity (Filter "sepia") (Throw (ErrorObject "refused")) 0
  = Throw (ErrorObject "refused")
  /\ history (resume atobIdentity (Filter "sepia") markedSession
                (Throw (ErrorObject "refused")) 0 markedSession)
     = history markedSession
  /\ error (resume atobIdentity (Filter "sepia") markedSession
              (Throw (ErrorObject "refused")) 0 markedSession)
     = Some "Échec de l'application du filtre. refused"%string.
Proof.
  split; [reflexivity|].
  pose proof (proj1 (proj2 (proj2 (proj2 (proj2
           (failed_edit_keeps_history atobIdentity markedSession)))))
           (Filter "sepia") markedSession (Throw (ErrorObject "refused")) 0
           (ErrorObject "refused") eq_refl) as H.
  split; [exact (proj1 H) | exact (proj2 (proj2 (proj2 H)))].
Defined.

(** C3. The code at the failing input.  On the crop tab with a completed
    selection 50 pixels wide and two fifths of a pixel high, at pixel ratio 1,
    the canvas is 50 by 0; a canvas with no pixels is encoded as ["data:,"],
    which [dataURLtoFile] refuses; [handleApplyCrop] has no [try] around that
    call, so the exception leaves the handler and the error message is never
    set: the reason is not shown.  The history and the cursor are untouched.
    The sibling handlers catch the same exception of the same call and show
    it after their prefix. *)
Theorem crop_decode_failure_not_reported :
  canvas_width (cropCanvas thinCrop
                  (mkImg (ofZ 2000) (ofZ 1000) (ofZ 1000) (ofZ 500)) (ofZ 1)) = 50
  /\ canvas_height (cropCanvas thinCrop
                      (mkImg (ofZ 2000) (ofZ 1000) (ofZ 1000) (ofZ 500)) (ofZ 1)) = 0
  /\ currentImage thinCropSession = Some fileA
  /\ error thinCropSession = None
  /\ handleApplyCrop atobIdentity browserCropHost thinCropSession
     = Throw (ErrorObject
                "Impossible d'analyser le type MIME à partir de l'URL de données"%string)
  /\ (forall s', handleApplyCrop atobIdentity browserCropHost thinCropSession
                 <> Normal s')
  /\ error (handleApplyFilter_resume atobIdentity thinCropSession
              (Normal "data:,"%string) 42 thinCropSession)
     = Some ("Échec de l'application du filtre. "
             ++ "Impossible d'analyser le type MIME à partir de l'URL de données")%string
  /\ history (handleApplyFilter_resume atobIdentity thinCropSession
                (Normal "data:,"%string) 42 thinCropSession)
     = history thinCropSession.
Proof.
  assert (H : handleApplyCrop atobIdentity browserCropHost thinCropSession
              = Throw (ErrorObject
                  "Impossible d'analyser le type MIME à partir de l'URL de données"%string))
    by (vm_compute; reflexivity).
  split; [vm_compute; reflexivity|]. split; [vm_compute; reflexivity|].
  split; [reflexivity|]. split; [reflexivity|]. split; [exact H|].
  split; [intros s' E; rewrite H in E; discriminate E|].
  split; vm_compute; reflexivity.
Qed.

(* ------------------------------------------------------------------------- *)
(** ** Requests while an edit is loading *)

(** A control whose [disabled] attribute contains [isLoading] runs nothing
    while [Hl : isLoading s = true]. *)
Ltac disabled_by Hl :=
  rewrite Hl; rewrite ?orb_true_r; cbn [orb negb];
  rewrite andb_false_r; reflexivity.

(** C4, as the claim states it, fails: called while [isLoading] is set, each
    of the three handlers starts one more service call. *)
Lemma handlers_have_no_busy_guard :
  isLoading loadingSession = true
  /\ callOf (handleGenerate loadingSession)
     = Some (generateEditedImage fileA "plus de ciel" samplePoint)
  /\ callOf (handleApplyFilter "sepia" loadingSession)
     = Some (generateFilteredImage fileA "sepia")
  /\ callOf (handleApplyAdjustment "plus chaud" loadingSession)
     = Some (generateAdjustedImage fileA "plus chaud")
  /\ callOf (handleApplyFilter "sepia" loadingSession) <> None.
Proof. repeat split. discriminate. Qed.

(** C4, amended.  While [isLoading] is set the controls are disabled: a click
    on the retouch button, on the adjustment panel's apply button, on a tab,
    on undo, redo, reset or new image, and a click on the image, run no
    handler, so that they start no call and leave the state as it is.  The
    handlers themselves have no guard on [isLoading]: called directly, a
    request that passes validation starts a call, and at that point the
    history and the cursor are unchanged and [isLoading] is still set. *)
Theorem loading_disables_controls (s : AppState) :
  isLoading s = true ->
  clickGenerate s = Return s
  /\ (forall p, clickApplyAdjustment p s = Return s)
  /\ (forall tab, clickTab tab s = s)
  /\ clickUndo s = s /\ clickRedo s = s
  /\ (forall confirmed, clickReset confirmed s = s)
  /\ (forall confirmed, clickNewImage confirmed s = s)
  /\ (forall e, handleImageClick e s = s)
  /\ (forall k s' call,
        request k s = Await s' call ->
        history s' = history s /\ historyIndex s' = historyIndex s
        /\ isLoading s' = true).
Proof.
  intros Hl.
  split; [unfold clickGenerate, generateButtonDisabled; disabled_by Hl|].
  split.
  { intros p. unfold clickApplyAdjustment, AdjustmentPanel.clickApply,
      AdjustmentPanel.applyButtonDisabled. rewrite Hl.
    cbn [orb negb]. rewrite andb_false_r.
    destruct (editorRendered s && isAdjust (activeTab s)); reflexivity. }
  split; [intros tab; unfold clickTab; disabled_by Hl|].
  split; [unfold clickUndo; disabled_by Hl|].
  split; [unfold clickRedo; disabled_by Hl|].
  split; [intros c; unfold clickReset; disabled_by Hl|].
  split; [intros c; unfold clickNewImage; disabled_by Hl|].
  split; [intros e; apply handleImageClick_inactive; right; exact Hl|].
  intros k s' call H. rewrite (request_awaits k s s' call H). repeat split.
Qed.

Lemma loading_disables_controls_witness :
  isLoading loadingSession = true
  /\ clickGenerate loadingSession = Return loadingSession.
Proof.
  split; [reflexivity|].
  exact (proj1 (loading_disables_controls loadingSession eq_refl)).
Defined.

(* ------------------------------------------------------------------------- *)
(** ** Decoding the service's response *)

Section ApiResponse.

Import Service.

Variable response : GenerateContentResponse.
Variable context : string.

Lemma promptBlocked_reason :
  promptBlocked response = None <-> promptBlockReason response = None.
Proof.
  unfold promptBlocked, promptBlockReason.
  destruct (promptFeedback response) as [fb|]; [|tauto].
  destruct (truthy (blockReason fb)); split; intros H; congruence.
Qed.



End ApiResponse.


(* ------------------------------------------------------------------------- *)
(** ** Further properties: the history *)

(** X1. Every handler keeps the two history cells in shape: either no image
    and cursor -1, or a cursor inside the sequence. *)
Theorem history_invariant (atob : string -> Completion string) (s : AppState) :
  wellFormed s ->
  (forall file, wellFormed (handleImageUpload file s))
  /\ (forall cl f, wellFormed (addImageToHistory cl f s))
  /\ wellFormed (handleUndo s) /\ wellFormed (handleRedo s)
  /\ (forall confirmed, wellFormed (handleReset confirmed s))
  /\ (forall confirmed, wellFormed (handleNewImage confirmed s))
  /\ (forall tab, wellFormed (handleTabChange tab s))
  /\ (forall e, wellFormed (handleImageClick e s))
  /\ (forall k, wellFormed (stateOf (request k s)))
  /\ (forall k cl outcome now, wellFormed (resume atob k cl outcome now s))
  /\ (forall h s', handleApplyCrop atob h s = Normal s' -> wellFormed s').
Proof.
  intros H.
  split; [intros file; apply wellFormed_upload|].
  split; [intros cl f; apply wellFormed_commit|].
  split; [apply wellFormed_undo, H|].
  split; [apply wellFormed_redo, H|].
  split; [intros c; apply wellFormed_reset, H|].
  split; [intros c; apply wellFormed_new, H|].
  split.
  { intros tab. unfold handleTabChange.
    destruct (isSideBySide s && _); exact H. }
  split.
  { intros e. unfold handleImageClick.
    destruct (_ || isLoading s); exact H. }
  split.
  { intros k. destruct (request k s) as [s' | s' call] eqn:E.
    - destruct (request_returns k s s' E) as [msg ->]. exact H.
    - rewrite (request_awaits k s s' call E). exact H. }
  split; [intros k cl outcome now; apply wellFormed_resume, H|].
  intros h s'. unfold handleApplyCrop.
  destruct (completedCrop s) as [cc|];
    [|intros E; inversion E; exact H].
  destruct (imgRef_current h) as [image|];
    [|intros E; inversion E; exact H].
  destruct (context2d h); [|intros E; inversion E; exact H].
  destruct (dataURLtoFile _ _ _) as [f | e]; intros E; inversion E.
  apply wellFormed_commit.
Qed.

Lemma history_invariant_witness :
  wellFormed (session [fileA; fileB] 1)
  /\ wellFormed (handleUndo (session [fileA; fileB] 1)).
Proof.
  assert (H : wellFormed (session [fileA; fileB] 1))
    by (right; vm_compute; split; [discriminate | reflexivity]).
  split; [exact H|].
  exact (proj1 (proj2 (proj2 (history_invariant atobIdentity _ H)))).
Defined.

Lemma undo_steps (n : nat) (s : AppState) :
  0 <= historyIndex s ->
  historyIndex (repeatedly n handleUndo s) = Z.max 0 (historyIndex s - Z.of_nat n)
  /\ history (repeatedly n handleUndo s) = history s.
Proof.
  revert s. induction n as [|n IH]; intros s H0.
  - simpl. split; [lia | reflexivity].
  - change (repeatedly (S n) handleUndo s) with (repeatedly n handleUndo (handleUndo s)).
    unfold handleUndo at 2 4, canUndo.
    destruct (0 <? historyIndex s) eqn:E.
    + apply Z.ltb_lt in E.
      destruct (IH (setDisplayHotspot None (setEditHotspot None
                     (setHistoryIndex (historyIndex s - 1) s)))) as [Hi Hh];
        [simpl; lia|].
      rewrite Hi, Hh. simpl. split; [lia | reflexivity].
    + apply Z.ltb_ge in E. destruct (IH s H0) as [Hi Hh].
      rewrite Hi, Hh. split; [lia | reflexivity].
Qed.

Lemma redo_steps (n : nat) (s : AppState) :
  historyIndex s <= Z.of_nat (List.length (history s)) - 1 ->
  historyIndex (repeatedly n handleRedo s)
  = Z.min (Z.of_nat (List.length (history s)) - 1) (historyIndex s + Z.of_nat n)
  /\ history (repeatedly n handleRedo s) = history s.
Proof.
  revert s. induction n as [|n IH]; intros s H0.
  - simpl. split; [lia | reflexivity].
  - change (repeatedly (S n) handleRedo s) with (repeatedly n handleRedo (handleRedo s)).
    unfold handleRedo at 2 4, canRedo.
    destruct (historyIndex s <? Z.of_nat (List.length (history s)) - 1) eqn:E.
    + apply Z.ltb_lt in E.
      destruct (IH (setDisplayHotspot None (setEditHotspot None
                     (setHistoryIndex (historyIndex s + 1) s)))) as [Hi Hh];
        [simpl; lia|].
      rewrite Hi, Hh. simpl. split; [lia | reflexivity].
    + apply Z.ltb_ge in E. destruct (IH s H0) as [Hi Hh].
      rewrite Hi, Hh. split; [lia | reflexivity].
Qed.

(** X2. With an image loaded and the cursor inside the sequence, [n] undos
    move the cursor down by [n] but never below 0, [n] redos move it up by
    [n] but never beyond the last index, and neither changes the sequence. *)
Theorem undo_redo_clamp (n : nat) (s : AppState) :
  0 <= historyIndex s < Z.of_nat (List.length (history s)) ->
  historyIndex (repeatedly n handleUndo s) = Z.max 0 (historyIndex s - Z.of_nat n)
  /\ history (repeatedly n handleUndo s) = history s
  /\ historyIndex (repeatedly n handleRedo s)
     = Z.min (Z.of_nat (List.length (history s)) - 1) (historyIndex s + Z.of_nat n)
  /\ history (repeatedly n handleRedo s) = history s.
Proof.
  intros H.
  destruct (undo_steps n s) as [A B]; [lia|].
  destruct (redo_steps n s) as [C D]; [lia|].
  auto.
Qed.

Lemma undo_redo_clamp_witness :
  historyIndex (repeatedly 5 handleUndo (session [fileA; fileB; fileC] 2)) = 0
  /\ historyIndex (repeatedly 5 handleRedo (session [fileA; fileB; fileC] 0)) = 2.
Proof.
  split.
  - exact (proj1 (undo_redo_clamp 5 (session [fileA; fileB; fileC] 2)
                    ltac:(vm_compute; split; [discriminate | reflexivity]))).
  - exact (proj1 (proj2 (proj2 (undo_redo_clamp 5 (session [fileA; fileB; fileC] 0)
                    ltac:(vm_compute; split; [discriminate | reflexivity]))))).
Defined.

Lemma redo_after_undo (s : AppState) :
  historyIndex s < Z.of_nat (List.length (history s)) ->
  canUndo s = true ->
  handleRedo (handleUndo s) = setDisplayHotspot None (setEditHotspot None s).
Proof.
  intros Hwf Hc.
  unfold handleUndo. rewrite Hc. unfold handleRedo, canRedo.
  cbn [historyIndex history setDisplayHotspot setEditHotspot setHistoryIndex].
  destruct (historyIndex s - 1 <? Z.of_nat (List.length (history s)) - 1) eqn:E;
    [|apply Z.ltb_ge in E; lia].
  destruct s. unfold setDisplayHotspot, setEditHotspot, setHistoryIndex.
  cbn [history historyIndex prompt isLoading error editHotspot displayHotspot
       activeTab crop completedCrop aspect isComparing isSideBySide].
  f_equal. lia.
Qed.

(** X3. When the cursor is inside the sequence, an undo followed by a redo,
    and a redo followed by an undo, come back to the state they started from
    with the hotspot cleared: same sequence, same cursor, same current
    image. *)
Theorem undo_redo_round_trip (s : AppState) :
  0 <= historyIndex s < Z.of_nat (List.length (history s)) ->
  (canUndo s = true ->
   handleRedo (handleUndo s) = setDisplayHotspot None (setEditHotspot None s)
   /\ currentImage (handleRedo (handleUndo s)) = currentImage s)
  /\ (canRedo s = true ->
      handleUndo (handleRedo s) = setDisplayHotspot None (setEditHotspot None s)
      /\ currentImage (handleUndo (handleRedo s)) = currentImage s).
Proof.
  intros Hwf. split; intros Hc.
  - assert (E : handleRedo (handleUndo s)
                = setDisplayHotspot None (setEditHotspot None s)).
    { unfold handleUndo. rewrite Hc. unfold handleRedo, canRedo.
      cbn [historyIndex history setDisplayHotspot setEditHotspot setHistoryIndex].
      destruct (historyIndex s - 1 <? Z.of_nat (List.length (history s)) - 1) eqn:E;
        [|apply Z.ltb_ge in E; lia].
      destruct s. unfold setDisplayHotspot, setEditHotspot, setHistoryIndex.
      cbn [history historyIndex prompt isLoading error editHotspot displayHotspot
           activeTab crop completedCrop aspect isComparing isSideBySide].
      f_equal. lia. }
    split; [exact E | rewrite E; reflexivity].
  - assert (E : handleUndo (handleRedo s)
                = setDisplayHotspot None (setEditHotspot None s)).
    { unfold handleRedo. rewrite Hc. unfold handleUndo, canUndo.
      cbn [historyIndex history setDisplayHotspot setEditHotspot setHistoryIndex].
      destruct (0 <? historyIndex s + 1) eqn:E;
        [|apply Z.ltb_ge in E; lia].
      destruct s. unfold setDisplayHotspot, setEditHotspot, setHistoryIndex.
      cbn [history historyIndex prompt isLoading error editHotspot displayHotspot
           activeTab crop completedCrop aspect isComparing isSideBySide].
      f_equal. lia. }
    split; [exact E | rewrite E; reflexivity].
Qed.

Lemma undo_redo_round_trip_witness :
  currentImage (handleRedo (handleUndo (session [fileA; fileB; fileC] 1)))
  = Some fileB.
Proof.
  exact (proj2 (proj1 (undo_redo_round_trip (session [fileA; fileB; fileC] 1)
                  ltac:(vm_compute; split; [discriminate | reflexivity]))
                  eq_refl)).
Defined.

Lemma originalImage_commit (cl : AppState) (f : File) (s : AppState) :
  0 <= historyIndex cl -> history cl <> [] ->
  originalImage (addImageToHistory cl f s) = originalImage cl.
Proof.
  intros Hi Hne. unfold originalImage.
  rewrite addImageToHistory_history, slice_prefix by lia.
  destruct (history cl) as [|a l]; [congruence|].
  replace (Z.to_nat (historyIndex cl + 1)) with (S (Z.to_nat (historyIndex cl)))
    by lia.
  reflexivity.
Qed.

(** X4. While an image is loaded the first element of the history, the
    original, is never replaced: a commit, an undo, a redo, a reset, and the
    settlement of an edit, successful or not, all leave it in place. *)
Theorem original_is_kept (atob : string -> Completion string) (s : AppState) :
  0 <= historyIndex s -> history s <> [] ->
  (forall f, originalImage (addImageToHistory s f s) = originalImage s)
  /\ originalImage (handleUndo s) = originalImage s
  /\ originalImage (handleRedo s) = originalImage s
  /\ (forall confirmed, originalImage (handleReset confirmed s) = originalImage s)
  /\ (forall k outcome now live,
        originalImage live = originalImage s ->
        originalImage (resume atob k s outcome now live) = originalImage s).
Proof.
  intros Hi Hne.
  split; [intros f; apply originalImage_commit; assumption|].
  split; [unfold handleUndo; destruct (canUndo s); reflexivity|].
  split; [unfold handleRedo; destruct (canRedo s); reflexivity|].
  split.
  { intros c. unfold handleReset.
    destruct (_ && c); reflexivity. }
  intros k outcome now live Hlive.
  destruct (decoded atob k outcome now) as [f | err] eqn:E.
  - destruct (resume_succeeded atob k s outcome now live f E) as [Hh _].
    unfold originalImage in *. rewrite Hh.
    apply (originalImage_commit s f live Hi Hne).
  - rewrite (resume_failed atob k s outcome now live err E). exact Hlive.
Qed.

Lemma original_is_kept_witness :
  originalImage (addImageToHistory (session [fileA; fileB] 0) fileC
                   (session [fileA; fileB] 0)) = Some fileA.
Proof.
  exact (proj1 (original_is_kept atobIdentity (session [fileA; fileB] 0)
                  ltac:(vm_compute; discriminate) ltac:(discriminate)) fileC).
Defined.

Lemma handleUndo_moves (s : AppState) :
  canUndo s = true ->
  historyIndex (handleUndo s) = historyIndex s - 1
  /\ history (handleUndo s) = history s.
Proof. intros H. unfold handleUndo. rewrite H. split; reflexivity. Qed.

Lemma index_prefix {A : Type} (l : list A) (i : Z) (x : A) :
  0 <= i < Z.of_nat (List.length l) ->
  index (firstn (Z.to_nat (i + 1)) l ++ [x]) i = index l i.
Proof.
  intros Hi. unfold index.
  destruct (i <? 0) eqn:E; [apply Z.ltb_lt in E; lia|].
  rewrite nth_error_app1 by (rewrite length_firstn; lia).
  rewrite nth_error_firstn.
  destruct (Z.to_nat i <? Z.to_nat (i + 1))%nat eqn:F; [reflexivity|].
  apply Nat.ltb_ge in F. lia.
Qed.

(** X5. With the cursor inside the sequence, a commit can be undone: right
    after it an undo is possible and shows the image that was current before
    the commit, and a redo then shows the committed snapshot again. *)
Theorem commit_then_undo (s : AppState) (f : File) :
  0 <= historyIndex s < Z.of_nat (List.length (history s)) ->
  let c := addImageToHistory s f s in
  historyIndex c = historyIndex s + 1
  /\ canUndo c = true
  /\ currentImage (handleUndo c) = currentImage s
  /\ currentImage (handleRedo (handleUndo c)) = Some f.
Proof.
  intros Hwf c.
  assert (Hh : history c
               = firstn (Z.to_nat (historyIndex s + 1)) (history s) ++ [f]).
  { subst c. rewrite addImageToHistory_history, slice_prefix by lia. reflexivity. }
  assert (Hlen : Z.of_nat (List.length (history c)) = historyIndex s + 2).
  { rewrite Hh, length_app, length_firstn. simpl List.length. lia. }
  assert (Hi : historyIndex c = historyIndex s + 1).
  { change (historyIndex c) with (Z.of_nat (List.length (history c)) - 1). lia. }
  assert (Hu : canUndo c = true).
  { unfold canUndo. apply Z.ltb_lt. lia. }
  assert (Hui : historyIndex (handleUndo c) = historyIndex s
                /\ history (handleUndo c) = history c).
  { destruct (handleUndo_moves c Hu) as [A B]. split; [lia | exact B]. }
  destruct Hui as [Hui Huh].
  split; [exact Hi|]. split; [exact Hu|]. split.
  - unfold currentImage. rewrite Hui, Huh, Hh. apply index_prefix. exact Hwf.
  - rewrite (redo_after_undo c) by (try exact Hu; lia).
    apply addImageToHistory_current.
Qed.

Lemma commit_then_undo_witness :
  currentImage (handleUndo (addImageToHistory (session [fileA; fileB] 1) fileC
                              (session [fileA; fileB] 1))) = Some fileB.
Proof.
  exact (proj1 (proj2 (proj2 (commit_then_undo (session [fileA; fileB] 1) fileC
                  ltac:(vm_compute; split; [discriminate | reflexivity]))))).
Defined.

(* ------------------------------------------------------------------------- *)
(** ** Further properties: requests and their settlement *)

Lemma request_call (k : AsyncEdit) (s s' : AppState) (call : ServiceCall) :
  request k s = Await s' call -> currentImage s = Some (callImage call).
Proof.
  destruct k; simpl;
    unfold handleGenerate, handleApplyFilter, handleApplyAdjustment;
    destruct (currentImage s);
    try destruct (truthy_string (trim (prompt s)));
    try destruct (editHotspot s);
    simpl; intros H; inversion H; reflexivity.
Qed.

Lemma resume_succeeded_state (atob : string -> Completion string) (k : AsyncEdit)
    (cl : AppState) (outcome : Completion string) (now : Z) (s : AppState)
    (f : File) :
  decoded atob k outcome now = Normal f ->
  resume atob k cl outcome now s
  = setIsLoading false
      match k with
      | Retouch =>
          setDisplayHotspot None (setEditHotspot None (addImageToHistory cl f s))
      | _ => addImageToHistory cl f s
      end.
Proof.
  intros H.
  destruct k; unfold resume, decoded, fileName in *;
    unfold handleGenerate_resume, handleApplyFilter_resume,
           handleApplyAdjustment_resume;
    (destruct outcome as [url | e]; [rewrite H | discriminate]); reflexivity.
Qed.

(** X6. A request that passes validation is made with the current image,
    and sets [isLoading]; however its promise settles, [isLoading] is false
    afterwards.  If the result decodes into a file, the history becomes the
    prefix up to the cursor of the render the request was made in followed by
    that file, which is the current image, no error is shown and the pending
    crop is cleared; the hotspot is cleared by a retouch and kept by a filter
    or an adjustment.  If not, history and cursor are those of the request,
    the error is the handler's prefix followed by the reason, and hotspot and
    pending crop are kept. *)
Theorem edit_settles (atob : string -> Completion string) (k : AsyncEdit)
    (s s1 : AppState) (call : ServiceCall) (outcome : Completion string) (now : Z) :
  request k s = Await s1 call ->
  let s2 := resume atob k s outcome now s1 in
  currentImage s = Some (callImage call)
  /\ isLoading s1 = true /\ isLoading s2 = false
  /\ match decoded atob k outcome now with
     | Normal f =>
         history s2 = slice (history s) 0 (historyIndex s + 1) ++ [f]
         /\ currentImage s2 = Some f
         /\ error s2 = None
         /\ crop s2 = None /\ completedCrop s2 = None
         /\ editHotspot s2
            = match k with Retouch => None | _ => editHotspot s end
     | Throw err =>
         history s2 = history s /\ historyIndex s2 = historyIndex s
         /\ error s2 = Some (failurePrefix k ++ errorMessage err)%string
         /\ editHotspot s2 = editHotspot s
         /\ crop s2 = crop s /\ completedCrop s2 = completedCrop s
     end.
Proof.
  intros Hreq s2.
  split; [exact (request_call k s s1 call Hreq)|].
  pose proof (request_awaits k s s1 call Hreq) as Hs1. subst s1.
  split; [reflexivity|].
  destruct (decoded atob k outcome now) as [f | err] eqn:E.
  - pose proof (resume_succeeded_state atob k s outcome now
                  (setError None (setIsLoading true s)) f E) as Hs2.
    fold s2 in Hs2.
    assert (Hcur : currentImage s2 = Some f).
    { rewrite Hs2.
      destruct k;
        exact (addImageToHistory_current s f (setError None (setIsLoading true s))). }
    rewrite Hs2. split; [reflexivity|].
    split; [destruct k; reflexivity|].
    split; [rewrite <- Hs2; exact Hcur|].
    destruct k; repeat split.
  - pose proof (resume_failed atob k s outcome now
                  (setError None (setIsLoading true s)) err E) as Hs2.
    fold s2 in Hs2. rewrite Hs2. repeat split.
Qed.

Lemma edit_settles_witness :
  currentImage markedSession = Some fileB
  /\ isLoading (resume atobIdentity (Filter "sepia") markedSession
                  (Normal sampleUrl) 7
                  (setError None (setIsLoading true markedSession))) = false.
Proof.
  pose proof (edit_settles atobIdentity (Filter "sepia") markedSession
                (setError None (setIsLoading true markedSession))
                (generateFilteredImage fileB "sepia") (Normal sampleUrl) 7
                eq_refl) as H.
  split; [exact (proj1 H) | exact (proj1 (proj2 (proj2 H)))].
Defined.

(** X7. Through its button a retouch never ends in a validation message:
    the click either does nothing or starts the service call with the current
    image, the prompt and the hotspot.  The same holds for the adjustment
    panel's apply button, whose call carries the panel's active prompt, which
    is not blank. *)
Theorem controls_pass_validation (s : AppState) :
  (clickGenerate s = Return s
   \/ exists image hotspot,
        currentImage s = Some image /\ editHotspot s = Some hotspot
        /\ trim (prompt s) <> EmptyString
        /\ clickGenerate s
           = Await (setError None (setIsLoading true s))
                   (generateEditedImage image (prompt s) hotspot))
  /\ (forall p,
        clickApplyAdjustment p s = Return s
        \/ exists image,
             currentImage s = Some image
             /\ trim (AdjustmentPanel.activePrompt p) <> EmptyString
             /\ clickApplyAdjustment p s
                = Await (setError None (setIsLoading true s))
                        (generateAdjustedImage image (AdjustmentPanel.activePrompt p))).
Proof.
  split.
  - unfold clickGenerate, generateButtonDisabled, editorRendered, handleGenerate.
    destruct (currentImage s) as [image|]; [|left; reflexivity].
    destruct (isRetouch (activeTab s)); [|left; reflexivity].
    destruct (isLoading s); [left; reflexivity|].
    destruct (truthy_string (trim (prompt s))) eqn:Ht; [|left; reflexivity].
    destruct (editHotspot s) as [hotspot|]; [|left; reflexivity].
    right. exists image, hotspot. repeat split.
    intros E. rewrite E in Ht. discriminate.
  - intros p.
    unfold clickApplyAdjustment, editorRendered, handleApplyAdjustment,
      AdjustmentPanel.clickApply, AdjustmentPanel.applyButtonRendered,
      AdjustmentPanel.applyButtonDisabled, AdjustmentPanel.handleApply.
    destruct (currentImage s) as [image|]; [|left; reflexivity].
    destruct (isAdjust (activeTab s)); [|left; reflexivity].
    destruct (truthy_string (AdjustmentPanel.activePrompt p)); [|left; reflexivity].
    destruct (isLoading s); [left; reflexivity|].
    destruct (truthy_string (trim (AdjustmentPanel.activePrompt p))) eqn:Ht;
      [|left; reflexivity].
    right. exists image. repeat split.
    intros E. rewrite E in Ht. discriminate.
Qed.

(** X8. The adjustment panel hands over an instruction exactly when no edit
    is loading and its active prompt is not blank, and the instruction is that
    active prompt; the active prompt is whatever was given last, a preset or
    typed text. *)
Theorem adjustment_panel_sends_active_prompt
    (isLoading : bool) (p : AdjustmentPanel.State) :
  (forall a,
     AdjustmentPanel.clickApply isLoading p = Some a
     <-> isLoading = false /\ a = AdjustmentPanel.activePrompt p
         /\ trim a <> EmptyString)
  /\ (forall preset,
        AdjustmentPanel.activePrompt (AdjustmentPanel.handlePresetClick preset p)
        = preset)
  /\ (forall value,
        AdjustmentPanel.activePrompt (AdjustmentPanel.handleCustomChange value p)
        = value).
Proof.
  split; [|split].
  - intros a.
    unfold AdjustmentPanel.clickApply, AdjustmentPanel.applyButtonRendered,
      AdjustmentPanel.applyButtonDisabled, AdjustmentPanel.handleApply.
    set (ap := AdjustmentPanel.activePrompt p).
    split.
    + destruct (truthy_string ap); [|discriminate].
      destruct isLoading; [discriminate|].
      destruct (truthy_string (trim ap)) eqn:Ht; [|discriminate].
      cbn. intros E. inversion E. subst a. repeat split.
      intros E'. rewrite E' in Ht. discriminate.
    + intros [-> [-> Ht]].
      assert (Ha : truthy_string ap = true).
      { destruct ap; [exfalso; apply Ht; reflexivity | reflexivity]. }
      assert (Hb : truthy_string (trim ap) = true).
      { destruct (trim ap); [congruence | reflexivity]. }
      rewrite Ha, Hb. reflexivity.
  - intros preset. unfold AdjustmentPanel.activePrompt, AdjustmentPanel.handlePresetClick.
    cbn. destruct preset; reflexivity.
  - intros value. reflexivity.
Qed.

(* ------------------------------------------------------------------------- *)
(** ** Further properties: side-by-side mode *)

(** X9. A tab switch always leaves side-by-side mode on only on the adjust
    and filters tabs; the side-by-side button, undo, redo, a confirmed or
    declined reset, a commit and an image click keep it so. *)
Theorem side_by_side_stays_on_its_tabs (s : AppState) :
  (forall tab, sideBySideOnItsTabs (handleTabChange tab s))
  /\ (sideBySideOnItsTabs s ->
      sideBySideOnItsTabs (clickSideBySide s)
      /\ sideBySideOnItsTabs (handleUndo s)
      /\ sideBySideOnItsTabs (handleRedo s)
      /\ (forall confirmed, sideBySideOnItsTabs (handleReset confirmed s))
      /\ (forall cl f, sideBySideOnItsTabs (addImageToHistory cl f s))
      /\ (forall e, sideBySideOnItsTabs (handleImageClick e s))).
Proof.
  split.
  - intros tab. unfold sideBySideOnItsTabs, handleTabChange.
    destruct (isSideBySide s) eqn:Hs; destruct tab; cbn; rewrite ?Hs;
      intros H; try discriminate; auto.
  - intros H. unfold sideBySideOnItsTabs in *.
    split.
    { unfold clickSideBySide, sideBySideButtonDisabled.
      destruct (editorRendered s); [|exact H].
      destruct (isLoading s); [exact H|].
      destruct (Z.of_nat (List.length (history s)) <? 2); [exact H|].
      destruct (activeTab s) eqn:Ht; cbn; rewrite ?Ht; auto. }
    split; [unfold handleUndo; destruct (canUndo s); exact H|].
    split; [unfold handleRedo; destruct (canRedo s); exact H|].
    split; [intros c; unfold handleReset; destruct (_ && c); exact H|].
    split; [intros cl f; exact H|].
    intros e. unfold handleImageClick. destruct (_ || isLoading s); exact H.
Qed.

Lemma side_by_side_stays_on_its_tabs_witness :
  sideBySideOnItsTabs (session [fileA; fileB] 1)
  /\ sideBySideOnItsTabs (clickSideBySide (session [fileA; fileB] 1)).
Proof.
  assert (H : sideBySideOnItsTabs (session [fileA; fileB] 1))
    by (intros E; discriminate E).
  split; [exact H|].
  exact (proj1 (proj2 (side_by_side_stays_on_its_tabs _) H)).
Defined.

(** X10. An upload does not leave side-by-side mode.  If the mode is on
    when the user starts over and then uploads a file, the editor opens on the
    retouch tab with the mode still on; there the side-by-side button is
    disabled, so a click on it changes nothing, and it is a click on the
    retouch or the crop tab that turns the mode off. *)
Theorem upload_keeps_side_by_side (s : AppState) (file : File) :
  isSideBySide s = true ->
  let s' := handleImageUpload file (handleNewImage true s) in
  isSideBySide s' = true /\ activeTab s' = retouch
  /\ ~ sideBySideOnItsTabs s'
  /\ clickSideBySide s' = s'
  /\ isSideBySide (handleTabChange retouch s') = false
  /\ isSideBySide (handleTabChange crop_tab s') = false.
Proof.
  intros H s'.
  assert (Hs : isSideBySide s' = true) by exact H.
  assert (Ht : activeTab s' = retouch) by reflexivity.
  split; [exact Hs|]. split; [exact Ht|]. split.
  { intros Hinv. destruct (Hinv Hs) as [E | E]; rewrite Ht in E; discriminate. }
  split.
  { unfold clickSideBySide, sideBySideButtonDisabled. rewrite Ht.
    cbn [isRetouch]. rewrite orb_true_r. cbn [orb negb].
    rewrite andb_false_r. reflexivity. }
  split; unfold handleTabChange; rewrite Hs; reflexivity.
Qed.

Lemma upload_keeps_side_by_side_witness :
  isSideBySide (handleImageUpload fileC
                  (handleNewImage true
                     (setIsSideBySide true (session [fileA; fileB] 1)))) = true.
Proof.
  exact (proj1 (upload_keeps_side_by_side
                  (setIsSideBySide true (session [fileA; fileB] 1)) fileC eq_refl)).
Defined.

(* ------------------------------------------------------------------------- *)
(** ** Further properties: data URLs *)

Section DataUrls.

Local Open Scope string_scope.

Lemma append_assoc (a b c : string) : (a ++ b) ++ c = a ++ (b ++ c).
Proof. induction a as [|x a IH]; simpl; [reflexivity | rewrite IH; reflexivity]. Qed.

Lemma forallChars_app (p : ascii -> bool) (a b : string) :
  forallChars p (a ++ b) = forallChars p a && forallChars p b.
Proof.
  induction a as [|x a IH]; simpl; [reflexivity|].
  rewrite IH, andb_assoc. reflexivity.
Qed.

Lemma forallChars_weaken (p q : ascii -> bool) (a : string) :
  (forall c, p c = true -> q c = true) ->
  forallChars p a = true -> forallChars q a = true.
Proof.
  intros Hpq. induction a as [|x a IH]; simpl; [reflexivity|].
  intros H. apply andb_true_iff in H. destruct H as [Hx Ha].
  rewrite (Hpq x Hx), (IH Ha). reflexivity.
Qed.

Lemma split_noComma (s : string) : noComma s = true -> split "," s = [s].
Proof.
  unfold noComma. induction s as [|c s IH]; simpl; [reflexivity|].
  intros H. apply andb_true_iff in H. destruct H as [Hc Hs].
  apply negb_true_iff in Hc. rewrite Hc, (IH Hs). reflexivity.
Qed.

Lemma split_at_comma (a b : string) :
  noComma a = true -> split "," (a ++ String "," b) = a :: split "," b.
Proof.
  unfold noComma. induction a as [|c a IH]; simpl; [reflexivity|].
  intros H. apply andb_true_iff in H. destruct H as [Hc Ha].
  apply negb_true_iff in Hc. rewrite Hc, (IH Ha). reflexivity.
Qed.

Lemma split_nonempty (s : string) : split "," s <> [].
Proof.
  destruct s as [|c r]; simpl; [discriminate|].
  destruct (Ascii.eqb c ","); [discriminate|].
  destruct (split "," r); discriminate.
Qed.

Lemma split_single (s head : string) : split "," s = [head] -> noComma s = true.
Proof.
  unfold noComma. revert head.
  induction s as [|c r IH]; intros head Hs; [reflexivity|].
  simpl in Hs. simpl. destruct (Ascii.eqb c ",") eqn:Hc.
  - inversion Hs as [[H1 H2]]. exfalso. exact (split_nonempty r H2).
  - destruct (split "," r) as [|piece rest] eqn:Hr.
    + exfalso. exact (split_nonempty r Hr).
    + inversion Hs. subst. simpl. apply (IH piece). reflexivity.
Qed.

Lemma split_two_pieces (s head payload : string) (rest : list string) :
  split "," s = head :: payload :: rest -> noComma s = false.
Proof.
  intros H. destruct (noComma s) eqn:E; [|reflexivity].
  rewrite (split_noComma s E) in H. discriminate.
Qed.

Lemma printable_no_terminator (c : ascii) (r : string) :
  isPrintable c = true -> startsWithLineTerminator (String c r) = false.
Proof.
  destruct c as [b0 b1 b2 b3 b4 b5 b6 b7].
  destruct b0, b1, b2, b3, b4, b5, b6, b7;
    intros H; try discriminate H; reflexivity.
Qed.

Lemma untilSemicolon_at (m r : string) :
  forallChars (fun c => isPrintable c && negb (Ascii.eqb c ",")
                        && negb (Ascii.eqb c ";")) m = true ->
  untilSemicolon (m ++ String ";" r) = Some m.
Proof.
  induction m as [|c m IH]; [reflexivity|].
  intros H. cbn [forallChars] in H.
  apply andb_true_iff in H. destruct H as [Hc Hm].
  apply andb_true_iff in Hc. destruct Hc as [Hc Hsemi].
  apply andb_true_iff in Hc. destruct Hc as [Hprint _].
  apply negb_true_iff in Hsemi.
  change ((String c m) ++ String ";" r) with (String c (m ++ String ";" r)).
  cbn [untilSemicolon]. rewrite Hsemi, (printable_no_terminator c _ Hprint), (IH Hm).
  reflexivity.
Qed.

Lemma fileType_plain (m : string) :
  plainMime m = true -> fileType m = mapChars toLowerAscii m.
Proof.
  unfold plainMime, fileType. intros H.
  apply andb_true_iff in H. destruct H as [_ H].
  rewrite (forallChars_weaken _ isPrintable m) with (2 := H); [reflexivity|].
  intros c Hc. apply andb_true_iff in Hc. destruct Hc as [Hc _].
  apply andb_true_iff in Hc. destruct Hc as [Hc _]. exact Hc.
Qed.

Lemma dataURLtoFile_data_url (atob : string -> Completion string)
    (m d filename : string) :
  plainMime m = true -> noComma d = true ->
  dataURLtoFile atob ("data:" ++ m ++ ";base64," ++ d) filename
  = decodedFile atob filename m d.
Proof.
  intros Hm Hd. unfold plainMime in Hm.
  apply andb_true_iff in Hm. destruct Hm as [Hne Hm].
  assert (Hurl : "data:" ++ m ++ ";base64," ++ d
                 = ("data:" ++ m ++ ";base64") ++ String "," d).
  { change (";base64," ++ d) with (";base64" ++ String "," d).
    rewrite !append_assoc. reflexivity. }
  assert (Hhead : noComma ("data:" ++ m ++ ";base64") = true).
  { unfold noComma. rewrite !forallChars_app.
    rewrite (forallChars_weaken _ _ m) with (2 := Hm); [reflexivity|].
    intros c Hc. apply andb_true_iff in Hc. destruct Hc as [Hc _].
    apply andb_true_iff in Hc. destruct Hc as [_ Hc]. exact Hc. }
  unfold dataURLtoFile. rewrite Hurl, (split_at_comma _ d Hhead).
  rewrite (split_noComma d Hd).
  assert (Hmime : matchMime ("data:" ++ m ++ ";base64") = Some m).
  { change ("data:" ++ m ++ ";base64")
      with (String "d" (String "a" (String "t" (String "a"
              (String ":" (m ++ String ";" "base64")))))).
    cbn [matchMime Ascii.eqb Bool.eqb].
    rewrite (untilSemicolon_at m "base64" Hm). reflexivity. }
  rewrite Hmime, Hne. reflexivity.
Qed.

Lemma dataURLtoFile_returns (atob : string -> Completion string)
    (dataurl filename : string) (f : File) :
  dataURLtoFile atob dataurl filename = Normal f ->
  file_name f = filename
  /\ (exists mime, mime <> EmptyString /\ file_type f = fileType mime)
  /\ noComma dataurl = false
  /\ exists payload, atob payload = Normal (file_bytes f).
Proof.
  unfold dataURLtoFile.
  destruct (split "," dataurl) as [|head [|payload rest]] eqn:Hs;
    try discriminate.
  destruct (matchMime head) as [mime|]; [|discriminate].
  destruct (truthy_string mime) eqn:Hm; [|discriminate].
  destruct (atob payload) as [b | e'] eqn:Ha; [|discriminate].
  intros E. inversion E. cbn. split; [reflexivity|]. split.
  { exists mime. split; [|reflexivity].
    intros E'. rewrite E' in Hm. discriminate. }
  split; [exact (split_two_pieces _ _ _ _ Hs)|].
  exists payload. exact Ha.
Qed.

(** X12. [dataURLtoFile] fails in exactly three ways.  Without a comma in
    the URL it throws the invalid-URL error and the base64 decoder is not
    consulted; otherwise a failure is the MIME error or what the base64
    decoder threw on some payload.  When it returns a file, the file has the
    given name, its type is what the [File] constructor makes of a non-empty
    MIME type (lower case, or empty when a character is outside U+0020 to
    U+007E), the URL had a comma, and the bytes are what the decoder
    returned. *)
Theorem dataURLtoFile_outcomes (atob : string -> Completion string)
    (dataurl filename : string) :
  (noComma dataurl = true ->
   dataURLtoFile atob dataurl filename
   = Throw (ErrorObject "URL de données invalide"))
  /\ (forall e,
        dataURLtoFile atob dataurl filename = Throw e ->
        (e = ErrorObject "URL de données invalide" /\ noComma dataurl = true)
        \/ e = ErrorObject "Impossible d'analyser le type MIME à partir de l'URL de données"
        \/ exists payload, atob payload = Throw e)
  /\ (forall f,
        dataURLtoFile atob dataurl filename = Normal f ->
        file_name f = filename
        /\ (exists mime, mime <> EmptyString /\ file_type f = fileType mime)
        /\ noComma dataurl = false
        /\ exists payload, atob payload = Normal (file_bytes f))
  /\ fileType "IMAGE/PNG" = "image/png"
  /\ fileType (String (ascii_of_nat 233) "x") = EmptyString.
Proof.
  split; [|split; [|split]].
  - intros H. unfold dataURLtoFile. rewrite (split_noComma dataurl H). reflexivity.
  - intros e. unfold dataURLtoFile.
    destruct (split "," dataurl) as [|head [|payload rest]] eqn:Hs.
    + exfalso. exact (split_nonempty dataurl Hs).
    + intros E. inversion E. left. split; [reflexivity|].
      exact (split_single dataurl head Hs).
    + destruct (matchMime head) as [mime|]; [|intros E; inversion E; auto].
      destruct (truthy_string mime); [|intros E; inversion E; auto].
      destruct (atob payload) as [b | e'] eqn:Ha; [discriminate|].
      intros E. inversion E. subst. right. right. exists payload. exact Ha.
  - intros f. apply dataURLtoFile_returns.
  - split; reflexivity.
Qed.

Lemma dataURLtoFile_outcomes_witness :
  dataURLtoFile atobIdentity "nothing to split" "x.png"
  = Throw (ErrorObject "URL de données invalide").
Proof.
  exact (proj1 (dataURLtoFile_outcomes atobIdentity "nothing to split" "x.png")
           eq_refl).
Defined.

(** X13. The two decoders of a data URL agree: [fileToPart] and
    [dataURLtoFile] reject the same URLs with the same error, and on a URL
    that [fileToPart] accepts with MIME type [m] and payload [p],
    [dataURLtoFile] gives the file of type [m] whose bytes are the base64
    decoding of [p], or fails as that decoding fails. *)
Theorem data_url_decoders_agree (atob : string -> Completion string)
    (dataurl filename : string) :
  match fileToPart (Normal dataurl) with
  | Normal blob =>
      exists m p,
        blob = Service.mkBlob (Some m) (Some p)
        /\ dataURLtoFile atob dataurl filename = decodedFile atob filename m p
  | Throw e => dataURLtoFile atob dataurl filename = Throw e
  end.
Proof.
  unfold fileToPart, dataURLtoFile, decodedFile.
  destruct (split "," dataurl) as [|head [|payload rest]]; try reflexivity.
  destruct (matchMime head) as [mime|]; [|reflexivity].
  destruct (truthy_string mime); [|reflexivity].
  exists mime, payload. split; reflexivity.
Qed.

Lemma handleApiResponse_image (response : Service.GenerateContentResponse)
    (context : string) (part : Service.Part) (blob : Service.Blob) :
  Service.promptBlockReason response = None ->
  Service.imagePartFromResponse response = Some part ->
  Service.inlineData part = Some blob ->
  Service.handleApiResponse response context
  = Normal ("data:" ++ show (Service.mimeType blob) ++ ";base64,"
                    ++ show (Service.data blob)).
Proof.
  intros Hb Hp Hd. unfold Service.handleApiResponse.
  apply promptBlocked_reason in Hb. rewrite Hb, Hp.
  destruct part as [d t]. simpl in Hd. subst d. reflexivity.
Qed.

(** X14. What the service returns for an image decodes back into that
    image: when the response is not blocked and its image part has a MIME type
    that is not empty and made of characters from U+0020 to U+007E other than
    comma and semicolon, and data that holds no comma, [handleApiResponse]
    returns a URL from which [dataURLtoFile] builds the file whose type is
    that MIME type in lower case and whose bytes are the base64 decoding of
    that data, failing only as that decoding fails. *)
Theorem service_image_round_trip (atob : string -> Completion string)
    (response : Service.GenerateContentResponse) (context filename : string)
    (part : Service.Part) (m d : string) :
  Service.promptBlockReason response = None ->
  Service.imagePartFromResponse response = Some part ->
  Service.inlineData part = Some (Service.mkBlob (Some m) (Some d)) ->
  plainMime m = true -> noComma d = true ->
  exists url,
    Service.handleApiResponse response context = Normal url
    /\ dataURLtoFile atob url filename
       = match atob d with
         | Normal bstr => Normal (mkFile filename (mapChars toLowerAscii m) bstr)
         | Throw e => Throw e
         end.
Proof.
  intros Hb Hp Hd Hm Hn.
  exists ("data:" ++ m ++ ";base64," ++ d). split.
  - rewrite (handleApiResponse_image response context part _ Hb Hp Hd).
    reflexivity.
  - rewrite (dataURLtoFile_data_url atob m d filename Hm Hn).
    unfold decodedFile, newFile. rewrite (fileType_plain m Hm). reflexivity.
Qed.

Lemma service_image_round_trip_witness :
  exists url,
    Service.handleApiResponse
      (responseWithParts
         [Service.mkPart (Some (Service.mkBlob (Some "IMAGE/PNG") (Some "AAAA"))) None])
      "le filtre" = Normal url
    /\ dataURLtoFile atobIdentity url "x.png"
       = Normal (mkFile "x.png" "image/png" "AAAA").
Proof.
  exact (service_image_round_trip atobIdentity
           (responseWithParts
              [Service.mkPart (Some (Service.mkBlob (Some "IMAGE/PNG") (Some "AAAA"))) None])
           "le filtre" "x.png" _ "IMAGE/PNG" "AAAA"
           eq_refl eq_refl eq_refl eq_refl eq_refl).
Defined.

Lemma find_first_image (texts more : list Service.Part) (part : Service.Part)
    (blob : Service.Blob) :
  (forall q, In q texts -> Service.inlineData q = None) ->
  Service.inlineData part = Some blob ->
  find (fun p => match Service.inlineData p with Some _ => true | None => false end)
       (texts ++ part :: more)%list
  = Some part.
Proof.
  intros Ht Hp. induction texts as [|q texts IH]; simpl.
  - rewrite Hp. reflexivity.
  - rewrite (Ht q (or_introl eq_refl)). apply IH.
    intros q' Hq'. apply Ht. right. exact Hq'.
Qed.

(** X15. Only the first candidate of a response is looked at, and in it the
    first part that has inline data: candidates after the first change
    nothing, and when the parts of the first candidate are some parts without
    inline data, then a part with inline data, then any others, an unblocked
    response decodes to the data URL of that part. *)
Theorem first_image_of_first_candidate
    (fb : option Service.PromptFeedback) (c : Service.Candidate)
    (rest : list Service.Candidate) (text : option string) (context : string) :
  Service.handleApiResponse (Service.mkResponse fb (Some (c :: rest)) text) context
  = Service.handleApiResponse (Service.mkResponse fb (Some [c]) text) context
  /\ (forall texts part more blob,
        Service.promptBlockReason (Service.mkResponse fb (Some (c :: rest)) text)
        = None ->
        Service.content c = Some (Service.mkContent (Some (texts ++ part :: more)%list)) ->
        (forall q, In q texts -> Service.inlineData q = None) ->
        Service.inlineData part = Some blob ->
        Service.handleApiResponse (Service.mkResponse fb (Some (c :: rest)) text) context
        = Normal ("data:" ++ show (Service.mimeType blob) ++ ";base64,"
                          ++ show (Service.data blob))).
Proof.
  split; [reflexivity|].
  intros texts part more blob Hb Hc Ht Hp.
  apply (handleApiResponse_image _ context part blob Hb); [|exact Hp].
  unfold Service.imagePartFromResponse. cbn [Service.firstCandidate Service.candidates].
  rewrite Hc. cbn [Service.parts].
  apply (find_first_image texts more part blob Ht Hp).
Qed.

Lemma first_image_of_first_candidate_witness :
  Service.handleApiResponse
    (responseWithParts
       [Service.mkPart None (Some "voici");
        Service.mkPart (Some (Service.mkBlob (Some "image/png") (Some "AAAA"))) None;
        Service.mkPart (Some (Service.mkBlob (Some "image/jpeg") (Some "BBBB"))) None])
    "le filtre"
  = Normal "data:image/png;base64,AAAA".
Proof.
  refine (proj2 (first_image_of_first_candidate None
                   (Service.mkCandidate _ (Some "STOP")) [] None "le filtre")
            [Service.mkPart None (Some "voici")]
            (Service.mkPart (Some (Service.mkBlob (Some "image/png") (Some "AAAA"))) None)
            [Service.mkPart (Some (Service.mkBlob (Some "image/jpeg") (Some "BBBB"))) None]
            (Service.mkBlob (Some "image/png") (Some "AAAA"))
            eq_refl eq_refl _ eq_refl).
  intros q [<- | []]. reflexivity.
Defined.

(* ------------------------------------------------------------------------- *)
(** ** Further properties: the service call as a whole *)

Lemma handleApiResponse_returns (response : Service.GenerateContentResponse)
    (context url : string) :
  Service.handleApiResponse response context = Normal url ->
  Service.promptBlockReason response = None
  /\ Service.imagePartFromResponse response <> None.
Proof.
  unfold Service.handleApiResponse. intros H.
  destruct (Service.promptBlocked response) eqn:Hb; [discriminate|].
  split; [apply promptBlocked_reason; exact Hb|].
  destruct (Service.imagePartFromResponse response) as [part|]; [discriminate|].
  destruct (Service.candidateFinishReason response) as [reason|];
    [destruct (String.eqb reason "STOP")|]; discriminate.
Qed.

(** X16. A service call fails as soon as one of its steps fails, in this
    order: reading the file as a data URL, splitting that URL, the request to
    the model, the decoding of the reply.  Conversely, when the call returns a
    URL, the file was read into a well-formed data URL, the model replied, the
    reply was not blocked and held an image part. *)
Theorem settle_outcomes (call : ServiceCall) (h : ServiceHost) :
  (forall e, readAsDataURL h = Throw e -> settle call h = Throw e)
  /\ (forall e, fileToPart (readAsDataURL h) = Throw e -> settle call h = Throw e)
  /\ (forall blob e,
        fileToPart (readAsDataURL h) = Normal blob ->
        generateContent h = Throw e -> settle call h = Throw e)
  /\ (forall url,
        settle call h = Normal url ->
        exists dataUrl response,
          readAsDataURL h = Normal dataUrl
          /\ noComma dataUrl = false
          /\ generateContent h = Normal response
          /\ Service.promptBlockReason response = None
          /\ Service.imagePartFromResponse response <> None
          /\ Service.handleApiResponse response (callContext call) = Normal url).
Proof.
  unfold settle. split; [|split; [|split]].
  - intros e H. rewrite H. reflexivity.
  - intros e H. rewrite H. reflexivity.
  - intros blob e H1 H2. rewrite H1, H2. reflexivity.
  - intros url H.
    destruct (readAsDataURL h) as [dataUrl | e] eqn:Hr; [|discriminate].
    destruct (fileToPart (Normal dataUrl)) as [blob | e] eqn:Hp; [|discriminate].
    destruct (generateContent h) as [response | e] eqn:Hg; [|discriminate].
    exists dataUrl, response.
    destruct (handleApiResponse_returns response _ url H) as [Hb Hi].
    repeat split; try assumption.
    unfold fileToPart in Hp.
    destruct (split "," dataUrl) as [|head [|payload rest]] eqn:Hs;
      try discriminate.
    exact (split_two_pieces _ _ _ _ Hs).
Qed.

Lemma settle_outcomes_witness :
  settle (generateFilteredImage fileA "sepia")
         (mkServiceHost (Throw NotAnError) (Normal blockedWithImage))
  = Throw NotAnError.
Proof.
  exact (proj1 (settle_outcomes (generateFilteredImage fileA "sepia")
                  (mkServiceHost (Throw NotAnError) (Normal blockedWithImage)))
           NotAnError eq_refl).
Defined.

(** X17. A blocked prompt reaches the user as the handler's prefix followed
    by the blocked-request message: when the file is read and the model's
    reply carries a block reason, the call fails with that message, whatever
    else the reply holds, and the handler ends with that error shown,
    [isLoading] false, and the history and cursor it found.  When reading the
    file fails with something that is not an [Error], the text shown after the
    prefix is the unknown-error one. *)
Theorem blocked_reply_reaches_user (atob : string -> Completion string)
    (k : AsyncEdit) (cl : AppState) (now : Z) (s : AppState)
    (call : ServiceCall) (h : ServiceHost) :
  (forall blob response fb reason,
     fileToPart (readAsDataURL h) = Normal blob ->
     generateContent h = Normal response ->
     Service.promptFeedback response = Some fb ->
     Service.truthy (Service.blockReason fb) = Some reason ->
     settle call h = Throw (ErrorObject (Service.blockedMessage fb reason))
     /\ resume atob k cl (settle call h) now s
        = setIsLoading false
            (setError (Some (failurePrefix k ++ Service.blockedMessage fb reason)) s))
  /\ (readAsDataURL h = Throw NotAnError ->
      resume atob k cl (settle call h) now s
      = setIsLoading false
          (setError (Some (failurePrefix k ++ "Une erreur inconnue est survenue.")) s)).
Proof.
  split.
  - intros blob response fb reason Hp Hg Hfb Hr.
    assert (Hs : settle call h
                 = Throw (ErrorObject (Service.blockedMessage fb reason))).
    { unfold settle. rewrite Hp, Hg.
      unfold Service.handleApiResponse, Service.promptBlocked.
      rewrite Hfb, Hr. reflexivity. }
    split; [exact Hs|]. rewrite Hs.
    exact (resume_failed atob k cl
             (Throw (ErrorObject (Service.blockedMessage fb reason))) now s
             (ErrorObject (Service.blockedMessage fb reason)) eq_refl).
  - intros Hr.
    assert (Hs : settle call h = Throw NotAnError)
      by (unfold settle; rewrite Hr; reflexivity).
    rewrite Hs. exact (resume_failed atob k cl (Throw NotAnError) now s NotAnError eq_refl).
Qed.

Lemma blocked_reply_reaches_user_witness :
  error (resume atobIdentity (Filter "sepia") markedSession
           (settle (generateFilteredImage fileB "sepia")
                   (mkServiceHost (Normal sampleUrl) (Normal blockedWithImage)))
           0 markedSession)
  = Some ("Échec de l'application du filtre. "
          ++ "La requête a été bloquée. Raison : SAFETY. ").
Proof.
  pose proof (proj2 (proj1 (blocked_reply_reaches_user atobIdentity
                 (Filter "sepia") markedSession 0 markedSession
                 (generateFilteredImage fileB "sepia")
                 (mkServiceHost (Normal sampleUrl) (Normal blockedWithImage)))
               (Service.mkBlob (Some "image/png") (Some "AAAA")) blockedWithImage
               (Service.mkPromptFeedback (Some "SAFETY") None) "SAFETY"
               eq_refl eq_refl eq_refl eq_refl)) as H.
  rewrite H. reflexivity.
Defined.

(* ------------------------------------------------------------------------- *)
(** ** Further properties: a crop that succeeds *)

(** X18. When there is a completed selection, an image element and a
    drawing context, and the canvas's data URL decodes into a file, the crop
    commits that file: it is the current image, named after the clock, and the
    selection is cleared.  The handler does this without touching [isLoading],
    the error message or the hotspot: an error shown before the crop is still
    shown after it. *)
Theorem crop_commits (atob : string -> Completion string) (h : CropHost)
    (s : AppState) (cc : PixelCrop) (image : HTMLImageElement) (f : File) :
  completedCrop s = Some cc -> imgRef_current h = Some image ->
  context2d h = true ->
  dataURLtoFile atob
    (toDataURL h (cropCanvas cc image (window_devicePixelRatio h)))
    ("rognee-" ++ showZ (crop_now h) ++ ".png") = Normal f ->
  exists s',
    handleApplyCrop atob h s = Normal s'
    /\ history s' = (slice (history s) 0 (historyIndex s + 1) ++ [f])%list
    /\ currentImage s' = Some f
    /\ file_name f = "rognee-" ++ showZ (crop_now h) ++ ".png"
    /\ crop s' = None /\ completedCrop s' = None
    /\ isLoading s' = isLoading s /\ error s' = error s
    /\ editHotspot s' = editHotspot s /\ displayHotspot s' = displayHotspot s.
Proof.
  intros Hc Hi Hx Hd. exists (addImageToHistory s f s).
  split.
  { unfold handleApplyCrop. rewrite Hc, Hi, Hx, Hd. reflexivity. }
  split; [reflexivity|].
  split; [apply addImageToHistory_current|].
  split.
  { exact (proj1 (dataURLtoFile_returns atob _ _ f Hd)). }
  repeat split.
Qed.

Lemma crop_commits_witness :
  exists s',
    handleApplyCrop atobIdentity sampleCropHost
      (setError (Some "Impossible de traiter le rognage.") markedSession)
    = Normal s'
    /\ currentImage s' = Some (mkFile "rognee-42.png" "image/png" "AAAA")
    /\ error s' = Some "Impossible de traiter le rognage.".
Proof.
  destruct (crop_commits atobIdentity sampleCropHost
              (setError (Some "Impossible de traiter le rognage.") markedSession)
              sampleCrop (mkImg (ofZ 2000) (ofZ 1000) (ofZ 1000) (ofZ 500))
              (mkFile "rognee-42.png" "image/png" "AAAA")
              eq_refl eq_refl eq_refl eq_refl)
    as [s' [H1 [_ [H3 [_ [_ [_ [_ [H8 _]]]]]]]]].
  exists s'. split; [exact H1|]. split; [exact H3 | exact H8].
Defined.

End DataUrls.

(* ------------------------------------------------------------------------- *)
(** ** Further properties: upload and start over *)

(** X19. An upload starts a fresh session whatever came before: the file is
    the whole history, the current and the original image, on the retouch tab
    with no error, hotspot or pending crop; from there undo, redo and reset
    change nothing, however often they are used, so nothing of the previous
    history can be reached. *)
Theorem upload_starts_fresh_session (file : File) (s : AppState) :
  let s' := handleImageUpload file s in
  history s' = [file] /\ historyIndex s' = 0
  /\ currentImage s' = Some file /\ originalImage s' = Some file
  /\ activeTab s' = retouch /\ error s' = None
  /\ editHotspot s' = None /\ displayHotspot s' = None
  /\ crop s' = None /\ completedCrop s' = None
  /\ (forall n, repeatedly n handleUndo s' = s')
  /\ (forall n, repeatedly n handleRedo s' = s')
  /\ (forall confirmed, handleReset confirmed s' = s')
  /\ (forall confirmed, clickReset confirmed s' = s').
Proof.
  intros s'. repeat (split; [reflexivity|]).
  split; [apply repeatedly_fixed; reflexivity|].
  split; [apply repeatedly_fixed; reflexivity|].
  split; [intros [|]; reflexivity|].
  intros c. unfold clickReset.
  replace (Z.of_nat (List.length (history s')) <? 2) with true by reflexivity.
  rewrite orb_true_r, andb_false_r. reflexivity.
Qed.

(** X20. After a confirmed start-over there is no image: the history is
    empty at cursor -1, the editor is not rendered, so that none of its
    controls acts, and each of the three edit handlers, if called, reports the
    missing image and starts no call.  A declined start-over changes
    nothing. *)
Theorem start_over_empties (s : AppState) :
  let s' := handleNewImage true s in
  history s' = [] /\ historyIndex s' = -1
  /\ currentImage s' = None /\ originalImage s' = None
  /\ editorRendered s' = false
  /\ clickGenerate s' = Return s'
  /\ (forall p, clickApplyAdjustment p s' = Return s')
  /\ (forall tab, clickTab tab s' = s')
  /\ clickUndo s' = s' /\ clickRedo s' = s'
  /\ (forall confirmed, clickReset confirmed s' = s')
  /\ clickSideBySide s' = s'
  /\ (forall k, exists msg, request k s' = Return (setError (Some msg) s'))
  /\ handleNewImage false s = s.
Proof.
  intros s'. repeat (split; [reflexivity|]).
  split; [intros k; apply request_without_image; reflexivity|].
  reflexivity.
Qed.
